(** * The OTLP/HTTP exporter: delivery path and outcome classification

    A shallow embedding of [exporter.pushTraces], [pushMetrics], [pushLogs],
    [export], [readResponse] and the debug helpers of package
    [otlphttpexporter], together with the properties of the delivery path.

    Conventions.
    - Go's [int], [int64] and [time.Duration] are 64-bit two's complement
      integers (GOARCH with 64-bit [int]); they are carried as [Z] and the
      one arithmetic operation that can leave the range, the multiplication
      of a [Duration], is wrapped explicitly.
    - A Go [error] result is [option error] ([None] is [nil]).
    - A call either returns or panics; effects (debug log entries, requests
      handed to the transport, the state of the response body) are threaded
      through a [World].
    - Panics are those of the language (a nil client, a failed type
      assertion, a negative length given to [make]) and those of the two
      collaborators around which the push functions install their deferred
      [recover]: the encoder and the transport.  The text renderings used
      for debugging, which the source calls unguarded both before and
      inside that handler, return a text or an error. *)

From Stdlib Require Import ZArith List String Ascii Bool Lia DecimalString.
From stdpp Require Import gmap strings list.

Open Scope string_scope.
Open Scope list_scope.
Open Scope Z_scope.

(** ** Integers *)

Definition minInt64 : Z := - 2 ^ 63.
Definition maxInt64 : Z := 2 ^ 63 - 1.

(** Two's complement wrap-around of a 64-bit signed result. *)
Definition wrap64 (z : Z) : Z := (z + 2 ^ 63) mod 2 ^ 64 - 2 ^ 63.

(** [time.Duration] counts nanoseconds in an [int64]. *)
Definition Duration := Z.
Definition Second : Duration := 1000000000.

(** [time.Duration(n) * time.Second] *)
Definition Duration_mul (n : Z) (d : Duration) : Duration := wrap64 (n * d).

(** ** Strings: [%d] formatting and [strconv.Atoi] *)

(** The [%d] verb on an [int]. *)
Definition itoa (n : Z) : string := NilZero.string_of_int (Z.to_int n).

Definition digitValue (c : ascii) : option Z :=
  let n := Z.of_N (N_of_ascii c) in
  if (48 <=? n) && (n <=? 57) then Some (n - 48) else None.

Fixpoint parseDigits (s : string) (acc : Z) : option Z :=
  match s with
  | EmptyString => Some acc
  | String c s' =>
      match digitValue c with
      | Some d => parseDigits s' (acc * 10 + d)
      | None => None
      end
  end.

(** [strconv.Atoi] for a 64-bit [int]: an optional sign, then at least one
    decimal digit and nothing else; a value outside the [int] range is a
    range error.  [None] stands for a non-nil error. *)
Definition Atoi (s : string) : option Z :=
  match s with
  | EmptyString => None
  | String c rest =>
      let neg := Ascii.eqb c "-" in
      let digits := if neg || Ascii.eqb c "+" then rest else s in
      match digits with
      | EmptyString => None
      | _ =>
          match parseDigits digits 0 with
          | None => None
          | Some u =>
              let n := if neg then - u else u in
              if (minInt64 <=? n) && (n <=? maxInt64) then Some n else None
          end
      end
  end.

(** [contains sub s]: [sub] occurs in [s] ([strings.Contains]). *)
Fixpoint contains (sub s : string) : bool :=
  String.prefix sub s ||
  match s with
  | EmptyString => false
  | String _ s' => contains sub s'
  end.

(** ** Errors and outcomes *)

(** Modelled from the spec: the error wrappers [consumererror.NewPermanent]
    and [exporterhelper.NewThrottleRetry] of this repository are not among
    the sources; they are the constructors [permanent] ("an error marked
    permanent") and [throttleRetry] ("a throttle with its retry-after
    duration").  [errorString] is an error known by its message
    ([errors.New], [fmt.Errorf] without [%w], and the errors of the
    collaborators); [wrapError] is [fmt.Errorf] with [%w]. *)
Inductive error : Type :=
| errorString (msg : string)
| wrapError (msg : string) (err : error)
| permanent (err : error)
| throttleRetry (err : error) (delay : Duration).

Definition NewPermanent (err : error) : error := permanent err.
Definition NewThrottleRetry (err : error) (delay : Duration) : error :=
  throttleRetry err delay.

(** Modelled from the spec: the outcome seen by the retry engine,
    "Success | PermanentFailure(error) | ThrottledFailure(error,
    retry-after-duration) | RetryableFailure(error)". *)
Inductive Outcome : Type :=
| Success
| PermanentFailure (err : error)
| ThrottledFailure (err : error) (retryAfter : Duration)
| RetryableFailure (err : error).

(** Modelled from the spec: [consumererror.IsPermanent], which is not among
    the sources, finds "an error marked permanent": here, [errors.As] with
    a [permanent] target, the first permanent marker on the unwrap chain. *)
Fixpoint asPermanent (err : error) : option error :=
  match err with
  | errorString _ => None
  | wrapError _ e => asPermanent e
  | permanent e => Some e
  | throttleRetry e _ => asPermanent e
  end.

(** Modelled from the spec: the retry engine, which is not among the
    sources, finds a throttle and "the indicated duration": here,
    [errors.As] with a [throttleRetry] target. *)
Fixpoint asThrottleRetry (err : error) : option (error * Duration) :=
  match err with
  | errorString _ => None
  | wrapError _ e => asThrottleRetry e
  | permanent e => asThrottleRetry e
  | throttleRetry e d => Some (e, d)
  end.

(** Modelled from the spec: how the retry engine, which is not among the
    sources, reads the returned [error]: "stop retrying on
    PermanentFailure; wait at least the indicated duration on
    ThrottledFailure; apply its own backoff policy on RetryableFailure;
    proceed on Success". *)
Definition outcome (ret : option error) : Outcome :=
  match ret with
  | None => Success
  | Some err =>
      match asPermanent err with
      | Some e => PermanentFailure e
      | None =>
          match asThrottleRetry err with
          | Some (e, d) => ThrottledFailure e d
          | None => RetryableFailure err
          end
      end
  end.

(** The error that a failure outcome carries. *)
Definition carried (o : Outcome) : option error :=
  match o with
  | Success => None
  | PermanentFailure err => Some err
  | ThrottledFailure err _ => Some err
  | RetryableFailure err => Some err
  end.

(** ** HTTP values *)

Abbreviation bytes := (list Byte.byte).

(** [http.Header.Get]: the first value stored under the key, [""] if there
    is none.  The keys used here are already in canonical form. *)
Definition Header_Get (h : gmap string (list string)) (key : string) : string :=
  match h !! key with
  | Some (v :: _) => v
  | _ => ""
  end.

(** [http.Header.Set] *)
Definition Header_Set (key value : string) (h : gmap string (list string))
  : gmap string (list string) := <[key := [value]]> h.

Record Request : Type := {
  Method : string;
  URL : string;
  ReqHeader : gmap string (list string);
  Payload : bytes
}.

(** The state of a response body, an [io.ReadCloser]: [pending] are the
    bytes still to come, after which every read returns [ending] ([None] is
    [io.EOF], [Some m] a read error with message [m]); [consumed] counts the
    bytes handed out so far. *)
Record Body : Type := {
  pending : bytes;
  ending : option string;
  consumed : Z;
  closed : bool
}.

(** An [http.Response].  Its [Body] is given by what the stream will
    deliver: the bytes [BodyData], then [BodyEnd]. *)
Record Response : Type := {
  StatusCode : Z;
  Header : gmap string (list string);
  ContentLength : Z;
  BodyData : bytes;
  BodyEnd : option string
}.

(** The untouched body of a response. *)
Definition bodyOf (resp : Response) : Body :=
  {| pending := BodyData resp; ending := BodyEnd resp; consumed := 0;
     closed := false |}.

(** [google.rpc.Status] and [anypb.Any]. *)
Record Any : Type := { TypeUrl : string; Value : bytes }.
Record Status : Type := { Code : Z; Message : string; Details : list Any }.

Definition headerRetryAfter : string := "Retry-After".
Definition maxHTTPResponseReadBytes : Z := 64 * 1024.

(** ** Calls, panics and the world *)

Inductive PanicValue : Type :=
| nilDereference
| typeAssertion (asserted dynamic : string)
| makesliceLen
| collaboratorPanic (msg : string).

Inductive Res (A : Type) : Type :=
| Done (a : A)
| Panicked (v : PanicValue).
Arguments Done {A} a.
Arguments Panicked {A} v.

(** What a call returned, if it returned. *)
Definition returned {A} (r : Res A) : option A :=
  match r with Done a => Some a | Panicked _ => None end.

(** A zap entry: message and string fields. *)
Record Entry : Type := { entryMsg : string; entryFields : list (string * string) }.

Record World : Type := {
  logged : list Entry;     (* debug entries written so far *)
  wire : list Request;     (* requests handed to the transport *)
  conn : Body              (* the body of the response being handled *)
}.

Definition Go (A : Type) : Type := World -> Res A * World.

Definition ret {A} (a : A) : Go A := fun w => (Done a, w).
Definition panic {A} (v : PanicValue) : Go A := fun w => (Panicked v, w).
Definition bind {A B} (m : Go A) (k : A -> Go B) : Go B :=
  fun w =>
    match m w with
    | (Done a, w') => k a w'
    | (Panicked v, w') => (Panicked v, w')
    end.

Declare Scope go_scope.
Delimit Scope go_scope with go.
Notation "x <- m ;; k" := (bind m (fun x => k))
  (at level 100, m at next level, right associativity) : go_scope.
Notation "m ;; k" := (bind m (fun _ => k))
  (at level 100, right associativity) : go_scope.
Open Scope go_scope.

(** [defer d] around [body], for a function with unnamed results.  The
    deferred call runs when [body] has returned or panicked; it is given what
    [recover()] would return at that point and answers whether it called
    [recover].  A panic of the deferred call replaces the one in flight; a
    recovered panic makes the function return the zero value [zero]. *)
Definition defer_ {A} (zero : A) (d : option PanicValue -> Go bool) (body : Go A)
  : Go A :=
  fun w =>
    let '(r, w1) := body w in
    let inflight := match r with Done _ => None | Panicked v => Some v end in
    match d inflight w1 with
    | (Panicked v', w2) => (Panicked v', w2)
    | (Done recovered, w2) =>
        match r with
        | Done a => (Done a, w2)
        | Panicked v => if recovered then (Done zero, w2) else (Panicked v, w2)
        end
    end.

(** ** The response body as an [io.Reader] *)

Definition setConn (b : Body) (w : World) : World :=
  {| logged := logged w; wire := wire w; conn := b |}.

(** The stream after [k] more bytes were asked of it. *)
Definition advance (k : nat) (b : Body) : Body :=
  {| pending := drop k (pending b);
     ending := ending b;
     consumed := consumed b + Z.of_nat (length (take k (pending b)));
     closed := closed b |}.

(** [make([]byte, n)]: a negative length is a run-time panic. *)
Definition make (n : Z) : Go bytes :=
  if n <? 0 then panic makesliceLen
  else ret (repeat Byte.x00 (Z.to_nat n)).

(** [io.ReadFull(resp.Body, buf)]: reads exactly [len(buf)] bytes; the error
    is [io.EOF] (or the stream's own error) if nothing was read and
    [io.ErrUnexpectedEOF] (or the stream's own error) if the stream ended
    early.  Returns the buffer, the count and the error. *)
Definition ReadFull (buf : bytes) : Go (bytes * Z * option string) :=
  fun w =>
    let k := length buf in
    let got := take k (pending (conn w)) in
    let n := length got in
    let err :=
      if (n <? k)%nat then
        match ending (conn w) with
        | Some m => Some m
        | None => Some (if (n =? 0)%nat then "EOF" else "unexpected EOF")
        end
      else None in
    (Done (got ++ drop n buf, Z.of_nat n, err), setConn (advance k (conn w)) w).

(** [io.CopyN(ioutil.Discard, resp.Body, n)], its results dropped: up to
    [n] bytes are read from the stream and thrown away. *)
Definition CopyN_Discard (n : Z) : Go unit :=
  fun w => (Done tt, setConn (advance (Z.to_nat n) (conn w)) w).

(** [resp.Body.Close()] *)
Definition Body_Close : Go unit :=
  fun w =>
    (Done tt,
     setConn {| pending := pending (conn w); ending := ending (conn w);
                consumed := consumed (conn w); closed := true |} w).

(** ** The exporter *)

Section Exporter.

(** The three kinds of batch are opaque to the exporter. *)
Context {Traces Metrics Logs : Type}.

(** [ptraceotlp.NewRequestFromTraces(td).MarshalProto()] and its siblings:
    the payload, an error, or a panic (the push functions install a
    deferred [recover] for that case). *)
Variable MarshalProtoTraces : Traces -> Res (bytes + string).
Variable MarshalProtoMetrics : Metrics -> Res (bytes + string).
Variable MarshalProtoLogs : Logs -> Res (bytes + string).

(** The error of [url.Parse] inside [http.NewRequestWithContext], if any. *)
Variable urlError : string -> option string.

(** [proto.Unmarshal] into a [status.Status]; [None] is a non-nil error. *)
Variable Unmarshal : bytes -> option Status.

(** The [String] method of an [anypb.Any], used by the [%v] verb. *)
Variable AnyString : Any -> string.

(** An [http.Client] as seen by one call of [Do]: a response, a
    transport-level error, or a panic. *)
Definition Client : Type := Request -> Res (Response + string).

(** The fields of [exporter] that the push path reads.  [client] is [nil]
    ([None]) until [start] has run; [debugEnabled] is
    [e.logger.Core().Enabled(zap.DebugLevel)]; the text marshalers return
    the rendering, [string(buf)], or the message of an error. *)
Record exporter : Type := {
  client : option Client;
  tracesURL : string;
  metricsURL : string;
  logsURL : string;
  debugEnabled : bool;
  userAgent : string;
  debugLogsMarshaler : Logs -> string + string;
  debugMetricsMarshaler : Metrics -> string + string;
  debugTracesMarshaler : Traces -> string + string
}.

(** The same exporter with its logger at another level. *)
Definition withDebug (b : bool) (e : exporter) : exporter :=
  {| client := client e; tracesURL := tracesURL e; metricsURL := metricsURL e;
     logsURL := logsURL e; debugEnabled := b; userAgent := userAgent e;
     debugLogsMarshaler := debugLogsMarshaler e;
     debugMetricsMarshaler := debugMetricsMarshaler e;
     debugTracesMarshaler := debugTracesMarshaler e |}.

(** A value of type [interface{}] holding a batch. *)
Inductive any : Type :=
| anyTraces (td : Traces)
| anyMetrics (md : Metrics)
| anyLogs (ld : Logs).

(** [d.(pdata.Metrics)] *)
Definition assertMetrics (d : any) : Go Metrics :=
  match d with
  | anyMetrics md => ret md
  | anyTraces _ => panic (typeAssertion "pdata.Metrics" "ptrace.Traces")
  | anyLogs _ => panic (typeAssertion "pdata.Metrics" "plog.Logs")
  end.

(** [e.logger.Debug(msg, fields...)] *)
Definition Debug (e : exporter) (msg : string) (fields : list (string * string))
  : Go unit :=
  fun w =>
    if debugEnabled e then
      (Done tt,
       {| logged := logged w ++ [{| entryMsg := msg; entryFields := fields |}];
          wire := wire w; conn := conn w |})
    else (Done tt, w).

(** [http.NewRequestWithContext(ctx, http.MethodPost, url, bytes.NewReader(request))] *)
Definition NewRequestWithContext (url : string) (request : bytes)
  : Request + string :=
  match urlError url with
  | Some m => inr m
  | None =>
      inl {| Method := "POST"; URL := url; ReqHeader := ∅; Payload := request |}
  end.

(** [req.Header.Set(key, value)] *)
Definition setHeader (key value : string) (req : Request) : Request :=
  {| Method := Method req; URL := URL req;
     ReqHeader := Header_Set key value (ReqHeader req);
     Payload := Payload req |}.

(** The request that [export] builds: lines 193-198. *)
Definition buildRequest (e : exporter) (url : string) (request : bytes)
  : Request + string :=
  match NewRequestWithContext url request with
  | inr m => inr m
  | inl req =>
      inl (setHeader "User-Agent" (userAgent e)
             (setHeader "Content-Type" "application/x-protobuf" req))
  end.

(** [e.client.Do(req)]: a nil client is a nil dereference; otherwise the
    request goes to the transport and, when a response comes back, its
    body becomes the stream being read. *)
Definition client_Do (e : exporter) (req : Request) : Go (Response + string) :=
  fun w =>
    match client e with
    | None => (Panicked nilDereference, w)
    | Some c =>
        let w1 := {| logged := logged w; wire := wire w ++ [req]; conn := conn w |} in
        match c req with
        | Panicked v => (Panicked v, w1)
        | Done (inr m) => (Done (inr m), w1)
        | Done (inl resp) => (Done (inl resp), setConn (bodyOf resp) w1)
        end
    end.

(** The [%v] verb on [respStatus.Details]. *)
Definition fmtDetails (ds : list Any) : string :=
  "[" +:+ String.concat " " (map AnyString ds) +:+ "]".

(** The two [fmt.Errorf] formats of [export]. *)
Definition fmtNoStatus (url : string) (code : Z) : string :=
  "error exporting items, request to " +:+ url
    +:+ " responded with HTTP Status Code " +:+ itoa code.

Definition fmtWithStatus (url : string) (code : Z) (st : Status) : string :=
  fmtNoStatus url code +:+ ", Message=" +:+ Message st
    +:+ ", Details=" +:+ fmtDetails (Details st).

(** [maxRead] of [readResponse], from [resp.ContentLength]. *)
Definition maxRead (contentLength : Z) : Z :=
  if (contentLength =? -1) || (contentLength >? maxHTTPResponseReadBytes)
  then maxHTTPResponseReadBytes else contentLength.

(** Read the response and decode the status.Status from the body.
    Returns nil if the response is empty or cannot be decoded. *)
Definition readResponse (resp : Response) : Go (option Status) :=
  if (400 <=? StatusCode resp) && (StatusCode resp <=? 599) then
    buf <- make (maxRead (ContentLength resp)) ;;
    r <- ReadFull buf ;;
    let '(respBytes, n, err) := r in
    match err with
    | None => if n >? 0 then ret (Unmarshal respBytes) else ret None
    | Some _ => ret None
    end
  else ret None.

(** [retryAfter] of [export], in seconds: 0 unless the [Retry-After]
    header is present and [strconv.Atoi] accepts it. *)
Definition retryAfter (resp : Response) : Z :=
  let val := Header_Get (Header resp) headerRetryAfter in
  if String.eqb val "" then 0
  else match Atoi val with
       | Some seconds => seconds
       | None => 0
       end.

(** Lines 218-228 of [export]: the error message, with the status if it
    is present in the response. *)
Definition formattedErr (url : string) (resp : Response)
    (respStatus : option Status) : error :=
  match respStatus with
  | Some st => errorString (fmtWithStatus url (StatusCode resp) st)
  | None => errorString (fmtNoStatus url (StatusCode resp))
  end.

(** Lines 230-251 of [export]: the error returned for a response that is
    not a success. *)
Definition failure (url : string) (resp : Response)
    (respStatus : option Status) : error :=
  (* Check if the server is overwhelmed. *)
  if (StatusCode resp =? 429) || (StatusCode resp =? 503) then
    (* Indicate to our caller to pause for the specified number of
       seconds. *)
    NewThrottleRetry (formattedErr url resp respStatus)
      (Duration_mul (retryAfter resp) Second)
  else if StatusCode resp =? 400 then
    (* Report the failure as permanent if the server thinks the request
       is malformed. *)
    NewPermanent (formattedErr url resp respStatus)
  else
    (* All other errors are retryable. *)
    formattedErr url resp respStatus.

(** Lines 211-251 of [export], the outcome classifier: what is returned
    once a response has been obtained. *)
Definition classify (url : string) (resp : Response) : Go (option error) :=
  if (200 <=? StatusCode resp) && (StatusCode resp <=? 299) then
    (* Request is successful. *)
    ret None
  else
    respStatus <- readResponse resp ;;
    ret (Some (failure url resp respStatus)).

(** The deferred closure of [export]: discard what is left of the body,
    up to the cap, and close it.  It does not call [recover]. *)
Definition drainAndClose : option PanicValue -> Go bool :=
  fun _ => CopyN_Discard maxHTTPResponseReadBytes ;; Body_Close ;; ret false.

Definition export (e : exporter) (url : string) (request : bytes)
  : Go (option error) :=
  Debug e "Preparing to make HTTP request" [("url", url)] ;;
  match buildRequest e url request with
  | inr m => ret (Some (NewPermanent (errorString m)))
  | inl req =>
      r <- client_Do e req ;;
      match r with
      | inr m =>
          ret (Some (wrapError ("failed to make an HTTP request: " +:+ m)
                               (errorString m)))
      | inl resp => defer_ None drainAndClose (classify url resp)
      end
  end.

(** The argument is an [interface{}], asserted to be a batch of metrics. *)
Definition logTextMetricsWithErrorHandled (e : exporter) (d : any) : Go string :=
  md <- assertMetrics d ;;
  match debugMetricsMarshaler e md with
  | inr m =>
      Debug e "Text Marshal failed for metrics: %v" [("error", m)] ;;
      ret "Text marshal metrics failed for metrics."
  | inl buf => ret buf
  end.

Definition logTextTracesWithErrorHandled (e : exporter) (td : Traces) : Go string :=
  match debugTracesMarshaler e td with
  | inr m =>
      Debug e "Text Marshal failed for traces: %v" [("error", m)] ;;
      ret "Text marshal metrics failed for traces."
  | inl buf => ret buf
  end.

Definition logTextLogsWithErrorHandled (e : exporter) (ld : Logs) : Go string :=
  match debugLogsMarshaler e ld with
  | inr m =>
      Debug e "Text Marshal failed for logs: %v" [("error", m)] ;;
      ret "Text marshal metrics failed for logs."
  | inl buf => ret buf
  end.

(** The deferred call of the push functions: it calls [recover] and, when
    a panic was in flight, logs and raises it again. *)
Definition logAndRethrowIfPanic (e : exporter) (beforeMarshal : string)
    (marshalWithErrorHandled : unit -> Go string)
  : option PanicValue -> Go bool :=
  fun r =>
    match r with
    | Some v =>
        Debug e ("Before panic: " +:+ beforeMarshal) [] ;;
        s <- marshalWithErrorHandled tt ;;
        Debug e ("Panic: " +:+ s) [] ;;
        panic v
    | None => ret true
    end.

(** A call of a package-level function that may panic. *)
Definition call {A} (r : Res A) : Go A := fun w => (r, w).

(** What a push function does with the result of [MarshalProto]. *)
Definition send (e : exporter) (url : string) (r : bytes + string)
  : Go (option error) :=
  match r with
  | inr m => ret (Some (NewPermanent (errorString m)))
  | inl request => export e url request
  end.

Definition pushTraces (e : exporter) (td : Traces) : Go (option error) :=
  let rest := r <- call (MarshalProtoTraces td) ;; send e (tracesURL e) r in
  if debugEnabled e then
    beforeMarshal <- logTextTracesWithErrorHandled e td ;;
    defer_ None
      (logAndRethrowIfPanic e beforeMarshal
         (fun _ => logTextTracesWithErrorHandled e td))
      rest
  else rest.

Definition pushMetrics (e : exporter) (md : Metrics) : Go (option error) :=
  let rest := r <- call (MarshalProtoMetrics md) ;; send e (metricsURL e) r in
  if debugEnabled e then
    beforeMarshal <- logTextMetricsWithErrorHandled e (anyMetrics md) ;;
    defer_ None
      (logAndRethrowIfPanic e beforeMarshal
         (fun _ => logTextMetricsWithErrorHandled e (anyMetrics md)))
      rest
  else rest.

Definition pushLogs (e : exporter) (ld : Logs) : Go (option error) :=
  let rest := r <- call (MarshalProtoLogs ld) ;; send e (logsURL e) r in
  if debugEnabled e then
    beforeMarshal <- logTextLogsWithErrorHandled e ld ;;
    defer_ None
      (logAndRethrowIfPanic e beforeMarshal
         (fun _ => logTextMetricsWithErrorHandled e (anyLogs ld)))
      rest
  else rest.

(** The three entry points at once, for statements about "every push
    call": the batch, its encoder and its destination. *)
Definition push (e : exporter) (d : any) : Go (option error) :=
  match d with
  | anyTraces td => pushTraces e td
  | anyMetrics md => pushMetrics e md
  | anyLogs ld => pushLogs e ld
  end.

Definition MarshalProto (d : any) : Res (bytes + string) :=
  match d with
  | anyTraces td => MarshalProtoTraces td
  | anyMetrics md => MarshalProtoMetrics md
  | anyLogs ld => MarshalProtoLogs ld
  end.

Definition destination (e : exporter) (d : any) : string :=
  match d with
  | anyTraces _ => tracesURL e
  | anyMetrics _ => metricsURL e
  | anyLogs _ => logsURL e
  end.

(** A push function without its debug prologue: encode, then send. *)
Definition attempt (e : exporter) (d : any) : Go (option error) :=
  r <- call (MarshalProto d) ;; send e (destination e d) r.

(** The transport is there and answers the request that [export] builds
    for [url] and [request] with the response [resp]. *)
Definition answers (e : exporter) (url : string) (request : bytes)
    (resp : Response) : Prop :=
  exists (c : Client) (req : Request),
    client e = Some c /\ buildRequest e url request = inl req /\
    c req = Done (inl resp).

(** The transport is there and fails on that request with the
    transport-level error [m]: no response is obtained. *)
Definition fails (e : exporter) (url : string) (request : bytes)
    (m : string) : Prop :=
  exists (c : Client) (req : Request),
    client e = Some c /\ buildRequest e url request = inl req /\
    c req = Done (inr m).

(** The status that the decoder is meant to find in a response: for a
    failure code (400-599), the first [maxRead] bytes of the body decoded,
    provided that many bytes are there and there is at least one; no
    status otherwise.  [readResponse] is compared with it below. *)
Definition statusInBody (resp : Response) : option Status :=
  if (400 <=? StatusCode resp) && (StatusCode resp <=? 599) then
    let k := maxRead (ContentLength resp) in
    if (0 <? k) && (k <=? Z.of_nat (length (BodyData resp)))
    then Unmarshal (take (Z.to_nat k) (BodyData resp))
    else None
  else None.

End Exporter.

(** ** Construction and start *)

(** [component.BuildInfo], as far as [newExporter] reads it. *)
Record BuildInfo : Type := { Description : string; Version : string }.

(** [Config] of the exporter, as far as [newExporter] reads it. *)
Record Config : Type := { Endpoint : string }.

(** A [config.Exporter]: this package's [*Config], or the configuration of
    another component, known by the name of its type. *)
Inductive ExporterConfig : Type :=
| ownConfig (oCfg : Config)
| otherConfig (typeName : string).

(** [component.ExporterCreateSettings]: the build information and, of the
    logger, whether its core is enabled at debug level. *)
Record ExporterCreateSettings : Type := {
  SetBuildInfo : BuildInfo;
  SetLoggerDebug : bool
}.

Section Lifecycle.

Context {Traces Metrics Logs : Type}.

(** The error of [url.Parse], if any. *)
Variable urlError : string -> option string.

(** [runtime.GOOS] and [runtime.GOARCH]. *)
Variable GOOS : string.
Variable GOARCH : string.

(** The marshalers that [otlptext] provides. *)
Variable NewTextLogsMarshaler : Logs -> string + string.
Variable NewTextMetricsMarshaler : Metrics -> string + string.
Variable NewTextTracesMarshaler : Traces -> string + string.

(** [fmt.Sprintf("%s/%s (%s/%s)", ...)] of [newExporter]. *)
Definition fmtUserAgent (info : BuildInfo) : string :=
  Description info +:+ "/" +:+ Version info
    +:+ " (" +:+ GOOS +:+ "/" +:+ GOARCH +:+ ")".

(** Crete new exporter.  The type assertion of [cfg] to this package's
    configuration panics on another configuration;
    the URLs and the client are left at their zero values (client
    construction is deferred to start). *)
Definition newExporter (cfg : ExporterConfig) (set : ExporterCreateSettings)
  : Res (@exporter Traces Metrics Logs + error) :=
  match cfg with
  | otherConfig typeName =>
      Panicked (typeAssertion "*otlphttpexporter.Config" typeName)
  | ownConfig oCfg =>
      let invalid :=
        if String.eqb (Endpoint oCfg) "" then false
        else match urlError (Endpoint oCfg) with
             | Some _ => true
             | None => false
             end in
      if invalid then Done (inr (errorString "endpoint must be a valid URL"))
      else
        Done (inl {| client := None;
                     tracesURL := ""; metricsURL := ""; logsURL := "";
                     debugEnabled := SetLoggerDebug set;
                     userAgent := fmtUserAgent (SetBuildInfo set);
                     debugLogsMarshaler := NewTextLogsMarshaler;
                     debugMetricsMarshaler := NewTextMetricsMarshaler;
                     debugTracesMarshaler := NewTextTracesMarshaler |})
  end.

(** [e.client = client] *)
Definition setClient (c : Client) (e : @exporter Traces Metrics Logs)
  : @exporter Traces Metrics Logs :=
  {| client := Some c; tracesURL := tracesURL e; metricsURL := metricsURL e;
     logsURL := logsURL e; debugEnabled := debugEnabled e;
     userAgent := userAgent e;
     debugLogsMarshaler := debugLogsMarshaler e;
     debugMetricsMarshaler := debugMetricsMarshaler e;
     debugTracesMarshaler := debugTracesMarshaler e |}.

(** start actually creates the HTTP client.  [toClient] is what
    [e.config.HTTPClientSettings.ToClient(host.GetExtensions(), e.settings)]
    returns; the exporter after the call and the error are returned. *)
Definition start (toClient : Client + string) (e : @exporter Traces Metrics Logs)
  : @exporter Traces Metrics Logs * option error :=
  match toClient with
  | inr m => (e, Some (errorString m))
  | inl c => (setClient c e, None)
  end.

End Lifecycle.

(** ** Service telemetry settings (package [config]) *)

Module Service.

(** [ServiceTelemetryLogs], without the fields that hold functions or
    nested zap structures ([Sampling], [EncoderConfig], [InitialFields]). *)
Record ServiceTelemetryLogs : Type := {
  Level : Z;
  Development : bool;
  Encoding : string;
  DisableCaller : bool;
  DisableStacktrace : bool;
  OutputPaths : list string;
  ErrorOutputPaths : list string
}.

Record ServiceTelemetry : Type := { Logs : ServiceTelemetryLogs }.

Definition doubleQuote : string := String (ascii_of_nat 34) EmptyString.

Section Validate.

(** The [%q] verb on a string ([strconv.Quote]). *)
Variable Quote : string -> string.

Definition fmtInvalidEncoding (encoding : string) : string :=
  "service telemetry logs invalid encoding: " +:+ Quote encoding
    +:+ ", valid values are " +:+ doubleQuote +:+ "json" +:+ doubleQuote
    +:+ " and " +:+ doubleQuote +:+ "console" +:+ doubleQuote.

Definition ServiceTelemetryLogs_validate (srvTL : ServiceTelemetryLogs)
  : option error :=
  if negb (String.eqb (Encoding srvTL) "json")
     && negb (String.eqb (Encoding srvTL) "console")
  then Some (errorString (fmtInvalidEncoding (Encoding srvTL)))
  else None.

Definition ServiceTelemetry_validate (srvT : ServiceTelemetry) : option error :=
  ServiceTelemetryLogs_validate (Logs srvT).

End Validate.

End Service.

(** ** Collaborators for the worked examples *)

(** A decoder for the wire encoding of [google.rpc.Status] ([code] = 1,
    [message] = 2, [details] = 3, an [Any] being [type_url] = 1 and
    [value] = 2), which stands for [proto.Unmarshal] where a statement needs
    concrete bytes.  Fields it does not know are skipped; groups are
    rejected; the UTF-8 check of string fields is left out. *)
Module Wire.

Definition byteZ (b : Byte.byte) : Z := Z.of_N (Byte.to_N b).

(** A base-128 varint of at most [fuel] bytes. *)
Fixpoint varint (fuel : nat) (shift acc : Z) (bs : bytes) : option (Z * bytes) :=
  match fuel, bs with
  | S fuel', b :: rest =>
      let acc' := Z.lor acc (Z.shiftl (Z.land (byteZ b) 127) shift) in
      if byteZ b <? 128 then Some (acc', rest)
      else varint fuel' (shift + 7) acc' rest
  | _, _ => None
  end.

Inductive field : Type :=
| fVarint (num v : Z)
| fBytes (num : Z) (v : bytes).

(** Skip [k] bytes of a fixed-width field. *)
Definition skip (k : nat) (bs : bytes) : option bytes :=
  if (k <=? length bs)%nat then Some (drop k bs) else None.

Fixpoint fields (fuel : nat) (bs : bytes) : option (list field) :=
  match bs, fuel with
  | [], _ => Some []
  | _, O => None
  | _, S fuel' =>
      match varint 10 0 0 bs with
      | None => None
      | Some (tag, rest) =>
          let num := Z.shiftr tag 3 in
          if num =? 0 then None
          else
            match Z.land tag 7 with
            | 0 =>
                match varint 10 0 0 rest with
                | None => None
                | Some (v, rest') =>
                    option_map (cons (fVarint num v)) (fields fuel' rest')
                end
            | 1 =>
                match skip 8 rest with
                | None => None
                | Some rest' => fields fuel' rest'
                end
            | 2 =>
                match varint 10 0 0 rest with
                | None => None
                | Some (len, rest') =>
                    if (Z.to_nat len <=? length rest')%nat then
                      option_map (cons (fBytes num (take (Z.to_nat len) rest')))
                                 (fields fuel' (drop (Z.to_nat len) rest'))
                    else None
                end
            | 5 =>
                match skip 4 rest with
                | None => None
                | Some rest' => fields fuel' rest'
                end
            | _ => None
            end
      end
  end.

Definition parse (bs : bytes) : option (list field) := fields (length bs) bs.

Definition int32 (v : Z) : Z := (v + 2 ^ 31) mod 2 ^ 32 - 2 ^ 31.

Definition anyField (a : Any) (f : field) : Any :=
  match f with
  | fBytes 1 v => {| TypeUrl := string_of_list_byte v; Value := Value a |}
  | fBytes 2 v => {| TypeUrl := TypeUrl a; Value := v |}
  | _ => a
  end.

Definition unmarshalAny (bs : bytes) : option Any :=
  option_map (fun fs => fold_left anyField fs {| TypeUrl := ""; Value := [] |})
             (parse bs).

Definition statusField (acc : option Status) (f : field) : option Status :=
  match acc with
  | None => None
  | Some st =>
      match f with
      | fVarint 1 v =>
          Some {| Code := int32 v; Message := Message st; Details := Details st |}
      | fBytes 2 v =>
          Some {| Code := Code st; Message := string_of_list_byte v;
                  Details := Details st |}
      | fBytes 3 v =>
          match unmarshalAny v with
          | None => None
          | Some a =>
              Some {| Code := Code st; Message := Message st;
                      Details := Details st ++ [a] |}
          end
      | _ => Some st
      end
  end.

Definition Unmarshal (bs : bytes) : option Status :=
  match parse bs with
  | None => None
  | Some fs =>
      fold_left statusField fs
        (Some {| Code := 0; Message := ""; Details := [] |})
  end.

Definition byteOf (n : Z) : Byte.byte :=
  match Byte.of_N (Z.to_N n) with
  | Some b => b
  | None => Byte.x00
  end.

Fixpoint putVarint (fuel : nat) (n : Z) : bytes :=
  match fuel with
  | O => []
  | S fuel' =>
      if n <? 128 then [byteOf n]
      else byteOf (n mod 128 + 128) :: putVarint fuel' (n / 128)
  end.

(** The encoding of a status that has only a message: tag [0x12], the
    length, the text. *)
Definition encodeMessage (msg : string) : bytes :=
  Byte.x12 :: putVarint 10 (Z.of_nat (String.length msg))
    ++ list_byte_of_string msg.

End Wire.

(** A rendering of an [Any] for the examples. *)
Definition exampleAnyString (a : Any) : string := "[" +:+ TypeUrl a +:+ "]".

(** An encoder that always succeeds, one that always fails and one that
    panics; batches are numbered. *)
Definition encodeOk (n : nat) : Res (bytes + string) :=
  Done (inl (repeat Byte.x0a n)).
Definition encodeErr (n : nat) : Res (bytes + string) :=
  Done (inr "proto: invalid batch").

Definition noUrlError (url : string) : option string := None.

(** A transport that answers every request with the same response, and one
    that refuses every connection. *)
Definition answer (resp : Response) : Client := fun _ => Done (inl resp).
Definition refuse : Client :=
  fun _ => Done (inr "dial tcp 127.0.0.1:4318: connect: connection refused").

Definition textOk (n : nat) : string + string := inl "ResourceLog #0".

Definition exampleExporter (c : option Client) (debug : bool)
  : @exporter nat nat nat :=
  {| client := c;
     tracesURL := "http://collector:4318/v1/traces";
     metricsURL := "http://collector:4318/v1/metrics";
     logsURL := "http://collector:4318/v1/logs";
     debugEnabled := debug;
     userAgent := "otelcol/0.50.0 (linux/amd64)";
     debugLogsMarshaler := textOk;
     debugMetricsMarshaler := textOk;
     debugTracesMarshaler := textOk |}.

Definition respond (code : Z) (hdr : list (string * list string))
    (len : Z) (body : bytes) : Response :=
  {| StatusCode := code; Header := list_to_map hdr; ContentLength := len;
     BodyData := body; BodyEnd := None |}.

Definition world0 : World :=
  {| logged := []; wire := [];
     conn := {| pending := []; ending := None; consumed := 0; closed := false |} |}.

(** The request that [export] builds for the example exporter. *)
Definition exampleRequest (url : string) (payload : bytes) : Request :=
  {| Method := "POST"; URL := url;
     ReqHeader :=
       Header_Set "User-Agent" "otelcol/0.50.0 (linux/amd64)"
         (Header_Set "Content-Type" "application/x-protobuf" ∅);
     Payload := payload |}.

Definition logsURL0 : string := "http://collector:4318/v1/logs".

(** [export] of an empty payload to the logs URL of the example exporter,
    whose transport answers with [resp]. *)
Definition exportTo (resp : Response) (debug : bool) : Go (option error) :=
  export noUrlError Wire.Unmarshal exampleAnyString
    (exampleExporter (Some (answer resp)) debug) logsURL0 [].

Definition resp429 : Response := respond 429 [("Retry-After", ["5"])] 0 [].
Definition resp503 : Response := respond 503 [("Retry-After", ["-5"])] 0 [].
Definition resp500bad : Response := respond 500 [] 3 [Byte.xff; Byte.xff; Byte.xff].
Definition resp500 : Response := respond 500 [] 12 (Wire.encodeMessage "overloaded").
Definition overloaded : Status := {| Code := 0; Message := "overloaded"; Details := [] |}.

(** A status whose message alone is longer than the cap. *)
Definition longMessage : string :=
  string_of_list_byte (repeat Byte.x61 (Z.to_nat 65600)).

(** A [url.Parse] that rejects every URL. *)
Definition rejectUrl (url : string) : option string :=
  Some "parse: missing protocol scheme".

Definition exampleSettings : ExporterCreateSettings :=
  {| SetBuildInfo := {| Description := "otelcol"; Version := "0.50.0" |};
     SetLoggerDebug := false |}.

(** The exporter that [newExporter] returns for an empty endpoint. *)
Definition constructed : @exporter nat nat nat :=
  {| client := None; tracesURL := ""; metricsURL := ""; logsURL := "";
     debugEnabled := false; userAgent := "otelcol/0.50.0 (linux/amd64)";
     debugLogsMarshaler := textOk; debugMetricsMarshaler := textOk;
     debugTracesMarshaler := textOk |}.

(** ** Worlds up to the debug log *)

(** Two worlds with the same requests on the wire and the same body state:
    they differ at most in their debug log. *)
Definition sim (w1 w2 : World) : Prop := wire w1 = wire w2 /\ conn w1 = conn w2.

(** Two computations that, from such worlds, end alike: same result, and
    worlds that again differ at most in the log. *)
Definition alike {A} (m1 m2 : Go A) : Prop :=
  forall w1 w2, sim w1 w2 ->
    fst (m1 w1) = fst (m2 w2) /\ sim (snd (m1 w1)) (snd (m2 w2)).


(** * Properties *)

(** ** Strings and integers *)

Lemma append_cons (x : ascii) (a b : string) :
  String x a +:+ b = String x (a +:+ b).
Proof. reflexivity. Qed.

Lemma append_assoc (a b c : string) : (a +:+ b) +:+ c = a +:+ (b +:+ c).
Proof.
  induction a as [|x a IH]; [reflexivity | now rewrite !append_cons, IH].
Qed.

Lemma prefix_append (s t : string) : String.prefix s (s +:+ t) = true.
Proof.
  induction s as [|c s IH]; [now destruct t|].
  rewrite append_cons. simpl.
  destruct (Ascii.ascii_dec c c) as [_|n]; [exact IH | now destruct n].
Qed.

Lemma contains_prefix (sub s : string) :
  String.prefix sub s = true -> contains sub s = true.
Proof. destruct s; simpl; intros ->; reflexivity. Qed.

Lemma contains_here (s t : string) : contains s (s +:+ t) = true.
Proof. apply contains_prefix, prefix_append. Qed.

Lemma contains_skip (sub a s : string) :
  contains sub s = true -> contains sub (a +:+ s) = true.
Proof.
  intros H. induction a as [|c a IH]; [exact H|].
  rewrite append_cons. simpl. rewrite IH. apply orb_true_r.
Qed.

(** A string contains each piece it was concatenated from. *)
Lemma contains_middle (sub a b : string) : contains sub (a +:+ sub +:+ b) = true.
Proof. apply contains_skip, contains_here. Qed.

Example Atoi_plain : Atoi "5" = Some 5.
Proof. reflexivity. Qed.

Example Atoi_negative : Atoi "-5" = Some (-5).
Proof. reflexivity. Qed.

Example Atoi_plus : Atoi "+120" = Some 120.
Proof. reflexivity. Qed.

Example Atoi_date : Atoi "Wed, 21 Oct 2015 07:28:00 GMT" = None.
Proof. reflexivity. Qed.

Example Atoi_space : Atoi " 5" = None.
Proof. reflexivity. Qed.

Example Atoi_sign_only : Atoi "-" = None.
Proof. reflexivity. Qed.

Example Atoi_maxInt : Atoi "9223372036854775807" = Some maxInt64.
Proof. reflexivity. Qed.

Example Atoi_range : Atoi "9223372036854775808" = None.
Proof. reflexivity. Qed.

Lemma Atoi_empty : Atoi "" = None.
Proof. reflexivity. Qed.

(** What [Atoi] accepts is an [int]. *)
Lemma Atoi_range_int (s : string) (n : Z) :
  Atoi s = Some n -> minInt64 <= n <= maxInt64.
Proof.
  unfold Atoi. destruct s as [|c rest]; [discriminate|].
  destruct (if Ascii.eqb c "-" || Ascii.eqb c "+" then rest else String c rest);
    [discriminate|].
  destruct (parseDigits _ _) as [u|]; [|discriminate].
  destruct (_ && _) eqn:E; [|discriminate].
  intros [= <-]. apply andb_true_iff in E. lia.
Qed.

(** Within 9223372036 seconds either way, the multiplication by
    [time.Second] is exact. *)
Lemma Duration_mul_exact (n : Z) :
  -9223372036 <= n <= 9223372036 -> Duration_mul n Second = n * 1000000000.
Proof.
  intros H. unfold Duration_mul, wrap64, Second.
  rewrite Z.mod_small; lia.
Qed.

Lemma Duration_mul_zero : Duration_mul 0 Second = 0.
Proof. reflexivity. Qed.

(** Beyond that the product wraps around. *)
Example Duration_mul_wraps :
  Duration_mul 9223372037 Second = -9223372036709551616.
Proof. reflexivity. Qed.

(** ** Calls *)

Lemma bind_Done {A B} (m : Go A) (k : A -> Go B) w a w' :
  m w = (Done a, w') -> bind m k w = k a w'.
Proof. intros H. unfold bind. now rewrite H. Qed.

Lemma bind_Panicked {A B} (m : Go A) (k : A -> Go B) w v w' :
  m w = (Panicked v, w') -> bind m k w = (Panicked v, w').
Proof. intros H. unfold bind. now rewrite H. Qed.

Lemma returned_Done {A} (r : Res A) (a : A) : returned r = Some a <-> r = Done a.
Proof. destruct r; simpl; split; congruence. Qed.

Lemma sim_refl w : sim w w.
Proof. now split. Qed.

Lemma sim_sym w1 w2 : sim w1 w2 -> sim w2 w1.
Proof. intros [H1 H2]. now split. Qed.

Lemma sim_trans w1 w2 w3 : sim w1 w2 -> sim w2 w3 -> sim w1 w3.
Proof. intros [H1 H2] [H3 H4]. split; congruence. Qed.

Lemma sim_setConn b w1 w2 : sim w1 w2 -> sim (setConn b w1) (setConn b w2).
Proof. intros [H1 H2]. split; simpl; congruence. Qed.

Lemma alike_ret {A} (a : A) : alike (ret a) (ret a).
Proof. intros w1 w2 H. now split. Qed.

Lemma alike_panic {A} (v : PanicValue) : alike (@panic A v) (panic v).
Proof. intros w1 w2 H. now split. Qed.

Lemma alike_call {A} (r : Res A) : alike (call r) (call r).
Proof. intros w1 w2 H. now split. Qed.

Lemma alike_bind {A B} (m1 m2 : Go A) (k1 k2 : A -> Go B) :
  alike m1 m2 -> (forall a, alike (k1 a) (k2 a)) -> alike (bind m1 k1) (bind m2 k2).
Proof.
  intros Hm Hk w1 w2 Hs. unfold bind.
  destruct (Hm w1 w2 Hs) as [Hf Hw].
  destruct (m1 w1) as [[a1|v1] w1'], (m2 w2) as [[a2|v2] w2'];
    simpl in Hf, Hw; try discriminate; injection Hf as <-.
  - now apply Hk.
  - now split.
Qed.

Lemma alike_defer {A} (zero : A) (d1 d2 : option PanicValue -> Go bool)
    (b1 b2 : Go A) :
  (forall r, alike (d1 r) (d2 r)) -> alike b1 b2 ->
  alike (defer_ zero d1 b1) (defer_ zero d2 b2).
Proof.
  intros Hd Hb w1 w2 Hs. unfold defer_.
  destruct (Hb w1 w2 Hs) as [Hf Hw].
  destruct (b1 w1) as [r1 w1'], (b2 w2) as [r2 w2']; simpl in Hf, Hw; subst r2.
  match goal with
  | |- context [d1 ?r w1'] => destruct (Hd r w1' w2' Hw) as [Hf' Hw']
  end.
  destruct (d1 _ w1') as [[c1|v1] u1], (d2 _ w2') as [[c2|v2] u2];
    simpl in Hf', Hw'; try discriminate; injection Hf' as <-.
  - destruct r1 as [a|v]; [now split|]. destruct c1; now split.
  - now split.
Qed.

(** The operations on the body read and write the body only. *)
Lemma alike_make (n : Z) : alike (make n) (make n).
Proof. unfold make. destruct (n <? 0); [apply alike_panic | apply alike_ret]. Qed.

Lemma alike_ReadFull (buf : bytes) : alike (ReadFull buf) (ReadFull buf).
Proof.
  intros w1 w2 [Hw Hc]. unfold ReadFull. simpl. rewrite Hc.
  split; [reflexivity | now split].
Qed.

Lemma alike_CopyN_Discard (n : Z) : alike (CopyN_Discard n) (CopyN_Discard n).
Proof.
  intros w1 w2 [Hw Hc]. unfold CopyN_Discard. simpl. rewrite Hc.
  split; [reflexivity | now split].
Qed.

Lemma alike_Body_Close : alike Body_Close Body_Close.
Proof.
  intros w1 w2 [Hw Hc]. unfold Body_Close. simpl. rewrite Hc.
  split; [reflexivity | now split].
Qed.

(** ** Reading the body *)

Lemma consumed_advance (k : nat) (b : Body) :
  consumed b <= consumed (advance k b) <= consumed b + Z.of_nat k.
Proof.
  unfold advance. simpl. rewrite length_take. lia.
Qed.

Lemma maxRead_bounds (len : Z) :
  -1 <= len -> 0 <= maxRead len <= maxHTTPResponseReadBytes.
Proof.
  unfold maxRead, maxHTTPResponseReadBytes. intros H.
  destruct (len =? -1) eqn:E1; simpl; [lia|].
  destruct (len >? 64 * 1024) eqn:E2; [lia|].
  apply Z.eqb_neq in E1. rewrite Z.gtb_ltb in E2. apply Z.ltb_ge in E2. lia.
Qed.

Lemma maxRead_cap (len : Z) : maxRead len <= maxHTTPResponseReadBytes.
Proof.
  unfold maxRead, maxHTTPResponseReadBytes.
  destruct (len =? -1) eqn:E1; simpl; [lia|].
  destruct (len >? 64 * 1024) eqn:E2; [lia|].
  rewrite Z.gtb_ltb in E2. apply Z.ltb_ge in E2. lia.
Qed.

(** [io.ReadFull] fills the buffer when the stream has that many bytes ... *)
Lemma ReadFull_full (buf : bytes) (w : World) :
  (length buf <= length (pending (conn w)))%nat ->
  ReadFull buf w =
    (Done (take (length buf) (pending (conn w)), Z.of_nat (length buf), None),
     setConn (advance (length buf) (conn w)) w).
Proof.
  intros H. unfold ReadFull. cbv zeta.
  rewrite (length_take_le _ _ H), drop_all, app_nil_r.
  now rewrite Nat.ltb_irrefl.
Qed.

(** ... and fails when it has fewer. *)
Lemma ReadFull_short (buf : bytes) (w : World) :
  (length (pending (conn w)) < length buf)%nat ->
  exists bs n m,
    ReadFull buf w = (Done (bs, n, Some m), setConn (advance (length buf) (conn w)) w).
Proof.
  intros H. unfold ReadFull. cbv zeta.
  rewrite length_take_ge by lia.
  destruct (Nat.ltb_spec (length (pending (conn w))) (length buf)) as [_|]; [|lia].
  destruct (ending (conn w)); eauto.
Qed.

Section Properties.

Context {Traces Metrics Logs : Type}.
Variable MarshalProtoTraces : Traces -> Res (bytes + string).
Variable MarshalProtoMetrics : Metrics -> Res (bytes + string).
Variable MarshalProtoLogs : Logs -> Res (bytes + string).
Variable urlError : string -> option string.
Variable Unmarshal : bytes -> option Status.
Variable AnyString : Any -> string.

Implicit Types (e : @exporter Traces Metrics Logs) (d : @any Traces Metrics Logs).
Implicit Types (resp : Response) (w : World) (url : string) (request : bytes).

(** [readResponse] decodes what [statusInBody] describes. *)
Lemma readResponse_status resp w :
  -1 <= ContentLength resp ->
  pending (conn w) = BodyData resp ->
  fst (readResponse Unmarshal resp w) = Done (statusInBody Unmarshal resp).
Proof.
  intros Hlen Hbody. unfold readResponse, statusInBody.
  destruct ((400 <=? StatusCode resp) && (StatusCode resp <=? 599)); [|reflexivity].
  pose proof (maxRead_bounds _ Hlen) as [Hk _].
  set (k := maxRead (ContentLength resp)) in *. clearbody k.
  unfold make. destruct (Z.ltb_spec k 0) as [|_]; [lia|].
  rewrite (bind_Done _ _ w (repeat Byte.x00 (Z.to_nat k)) w) by reflexivity.
  rewrite <- Hbody.
  destruct (Z.leb_spec k (Z.of_nat (length (pending (conn w))))) as [Hle|Hgt].
  - erewrite bind_Done; [|apply ReadFull_full; rewrite repeat_length; lia].
    cbv beta iota. rewrite repeat_length, Z2Nat.id, andb_true_r by lia.
    rewrite Z.gtb_ltb. now destruct (0 <? k).
  - rewrite andb_false_r.
    destruct (ReadFull_short (repeat Byte.x00 (Z.to_nat k)) w) as (bs & n & m & E);
      [rewrite repeat_length; lia|].
    erewrite bind_Done; [|exact E]. reflexivity.
Qed.


(** It touches neither the log nor the wire, and reads at most the cap. *)
Lemma readResponse_world resp w :
  logged (snd (readResponse Unmarshal resp w)) = logged w /\
  wire (snd (readResponse Unmarshal resp w)) = wire w /\
  closed (conn (snd (readResponse Unmarshal resp w))) = closed (conn w) /\
  consumed (conn w) <= consumed (conn (snd (readResponse Unmarshal resp w)))
    <= consumed (conn w) + maxHTTPResponseReadBytes.
Proof.
  pose proof (maxRead_cap (ContentLength resp)) as Hcap.
  assert (0 <= maxHTTPResponseReadBytes) as Hpos by (unfold maxHTTPResponseReadBytes; lia).
  unfold readResponse.
  destruct ((400 <=? StatusCode resp) && (StatusCode resp <=? 599));
    [|simpl; repeat split; lia].
  set (k := maxRead (ContentLength resp)) in *. clearbody k.
  unfold make. destruct (Z.ltb_spec k 0) as [|Hk]; [simpl; repeat split; lia|].
  rewrite (bind_Done _ _ w (repeat Byte.x00 (Z.to_nat k)) w) by reflexivity.
  pose proof (consumed_advance (Z.to_nat k) (conn w)) as Hadv.
  assert (consumed (conn w) <= consumed (advance (Z.to_nat k) (conn w))
          <= consumed (conn w) + maxHTTPResponseReadBytes) as Hadv' by lia.
  unfold bind, ReadFull. cbv zeta. rewrite repeat_length.
  destruct (_ <? _)%nat; [destruct (ending (conn w))|destruct (_ >? 0)];
    cbn [snd ret setConn logged wire conn]; repeat split;
    solve [reflexivity | apply Hadv'].
Qed.

(** ** The classifier *)

Lemma classify_success url resp w :
  200 <= StatusCode resp <= 299 ->
  classify Unmarshal AnyString url resp w = (Done None, w).
Proof.
  intros [H1 H2]. unfold classify.
  apply Z.leb_le in H1, H2. now rewrite H1, H2.
Qed.

Lemma classify_failure url resp w :
  ~ 200 <= StatusCode resp <= 299 ->
  -1 <= ContentLength resp ->
  pending (conn w) = BodyData resp ->
  fst (classify Unmarshal AnyString url resp w)
  = Done (Some (failure AnyString url resp (statusInBody Unmarshal resp))).
Proof.
  intros Hcode Hlen Hbody. unfold classify.
  destruct (Z.leb_spec 200 (StatusCode resp)), (Z.leb_spec (StatusCode resp) 299);
    try lia; cbn [andb];
    pose proof (readResponse_status resp w Hlen Hbody) as E;
    unfold bind; destruct (readResponse Unmarshal resp w) as [r w'];
    simpl in E; subst r; reflexivity.
Qed.

(** The classifier writes no log entry and sends nothing; it reads at
    most the cap from the body. *)
Lemma classify_world url resp w :
  logged (snd (classify Unmarshal AnyString url resp w)) = logged w /\
  wire (snd (classify Unmarshal AnyString url resp w)) = wire w /\
  closed (conn (snd (classify Unmarshal AnyString url resp w))) = closed (conn w) /\
  consumed (conn w) <= consumed (conn (snd (classify Unmarshal AnyString url resp w)))
    <= consumed (conn w) + maxHTTPResponseReadBytes.
Proof.
  assert (0 <= maxHTTPResponseReadBytes) as Hpos by (unfold maxHTTPResponseReadBytes; lia).
  unfold classify.
  destruct ((200 <=? StatusCode resp) && (StatusCode resp <=? 299));
    [simpl; repeat split; lia|].
  pose proof (readResponse_world resp w) as H.
  unfold bind. destruct (readResponse Unmarshal resp w) as [[st|v] w']; exact H.
Qed.

(** Outside 400-599 nothing is read at all. *)
Lemma classify_no_read url resp w :
  ~ 400 <= StatusCode resp <= 599 ->
  snd (classify Unmarshal AnyString url resp w) = w.
Proof.
  intros H. unfold classify, readResponse.
  destruct (_ && _); [reflexivity|].
  destruct (Z.leb_spec 400 (StatusCode resp)), (Z.leb_spec (StatusCode resp) 599);
    try lia; reflexivity.
Qed.

(** ** The deferred drain *)

(** The deferred closure of [export] leaves the result alone, also a
    panic; it reads at most the cap and closes the body. *)
Lemma defer_drain (m : Go (option error)) w :
  fst (defer_ None drainAndClose m w) = fst (m w) /\
  logged (snd (defer_ None drainAndClose m w)) = logged (snd (m w)) /\
  wire (snd (defer_ None drainAndClose m w)) = wire (snd (m w)) /\
  closed (conn (snd (defer_ None drainAndClose m w))) = true /\
  consumed (conn (snd (m w)))
    <= consumed (conn (snd (defer_ None drainAndClose m w)))
    <= consumed (conn (snd (m w))) + maxHTTPResponseReadBytes.
Proof.
  assert (0 <= maxHTTPResponseReadBytes) as Hpos by (unfold maxHTTPResponseReadBytes; lia).
  pose proof (consumed_advance (Z.to_nat maxHTTPResponseReadBytes) (conn (snd (m w)))) as H.
  rewrite Z2Nat.id in H by exact Hpos.
  unfold defer_, drainAndClose, bind, CopyN_Discard, Body_Close, ret.
  destruct (m w) as [[a|v] w1]; cbn [fst snd setConn logged wire conn closed consumed] in *;
    repeat split; solve [reflexivity | apply H].
Qed.

(** ** [export] *)

Lemma Debug_run e (msg : string) (fields : list (string * string)) w :
  exists w', Debug e msg fields w = (Done tt, w') /\ sim w' w.
Proof.
  unfold Debug. destruct (debugEnabled e); eexists; split;
    try reflexivity; now split.
Qed.

(** A URL that does not parse: a permanent error, nothing sent. *)
Lemma export_bad_url e url request (m : string) w :
  buildRequest urlError e url request = inr m ->
  fst (export urlError Unmarshal AnyString e url request w)
    = Done (Some (permanent (errorString m))) /\
  sim (snd (export urlError Unmarshal AnyString e url request w)) w.
Proof.
  intros H. unfold export.
  destruct (Debug_run e "Preparing to make HTTP request" [("url", url)] w)
    as (w0 & E & Hs).
  rewrite (bind_Done _ _ _ _ _ E), H. now split.
Qed.

(** The transport returns an error: the request went out, no body is
    read, and the error is wrapped with [%w]. *)
Lemma export_refused e url request (c : Client) (req : Request) (m : string) w :
  client e = Some c ->
  buildRequest urlError e url request = inl req ->
  c req = Done (inr m) ->
  fst (export urlError Unmarshal AnyString e url request w)
    = Done (Some (wrapError ("failed to make an HTTP request: " +:+ m)
                            (errorString m))) /\
  wire (snd (export urlError Unmarshal AnyString e url request w)) = wire w ++ [req] /\
  conn (snd (export urlError Unmarshal AnyString e url request w)) = conn w.
Proof.
  intros Hc Hb Hr. unfold export.
  destruct (Debug_run e "Preparing to make HTTP request" [("url", url)] w)
    as (w0 & E & Hw & Hcn).
  rewrite (bind_Done _ _ _ _ _ E), Hb.
  unfold bind, client_Do. rewrite Hc, Hr. cbn. rewrite Hw, Hcn. now repeat split.
Qed.

(** The transport returns a response: [export] is the classifier run on
    the untouched body, under the deferred drain. *)
Lemma export_answered e url request (c : Client) (req : Request) resp w :
  client e = Some c ->
  buildRequest urlError e url request = inl req ->
  c req = Done (inl resp) ->
  exists w1,
    conn w1 = bodyOf resp /\ wire w1 = wire w ++ [req] /\
    export urlError Unmarshal AnyString e url request w
    = defer_ None drainAndClose (classify Unmarshal AnyString url resp) w1.
Proof.
  intros Hc Hb Hr. unfold export.
  destruct (Debug_run e "Preparing to make HTTP request" [("url", url)] w)
    as (w0 & E & Hw & Hcn).
  rewrite (bind_Done _ _ _ _ _ E), Hb.
  unfold bind, client_Do. rewrite Hc, Hr.
  eexists. split; [|split; [|reflexivity]]; cbn; congruence.
Qed.

(** What [export] returns for a response. *)
Lemma export_outcome e url request (c : Client) (req : Request) resp w :
  client e = Some c ->
  buildRequest urlError e url request = inl req ->
  c req = Done (inl resp) ->
  -1 <= ContentLength resp ->
  fst (export urlError Unmarshal AnyString e url request w)
  = Done (if (200 <=? StatusCode resp) && (StatusCode resp <=? 299) then None
          else Some (failure AnyString url resp (statusInBody Unmarshal resp))).
Proof.
  intros Hc Hb Hr Hlen.
  destruct (export_answered e url request c req resp w Hc Hb Hr) as (w1 & Hcn & _ & ->).
  destruct (defer_drain (classify Unmarshal AnyString url resp) w1) as [-> _].
  destruct (Z.leb_spec 200 (StatusCode resp)), (Z.leb_spec (StatusCode resp) 299);
    cbn [andb];
    try (apply classify_failure; [lia | exact Hlen | now rewrite Hcn]).
  now rewrite classify_success.
Qed.

Lemma answers_outcome e url request resp w :
  answers urlError e url request resp ->
  -1 <= ContentLength resp ->
  fst (export urlError Unmarshal AnyString e url request w)
  = Done (if (200 <=? StatusCode resp) && (StatusCode resp <=? 299) then None
          else Some (failure AnyString url resp (statusInBody Unmarshal resp))).
Proof.
  intros (c & req & Hc & Hb & Hr) Hlen. now apply (export_outcome e url request c req).
Qed.

(** How the caller reads the error of a failure response. *)
Lemma outcome_failure url resp (st : option Status) :
  outcome (Some (failure AnyString url resp st))
  = if (StatusCode resp =? 429) || (StatusCode resp =? 503) then
      ThrottledFailure (formattedErr AnyString url resp st)
                       (Duration_mul (retryAfter resp) Second)
    else if StatusCode resp =? 400 then
      PermanentFailure (formattedErr AnyString url resp st)
    else RetryableFailure (formattedErr AnyString url resp st).
Proof.
  unfold failure. destruct (_ || _); [|destruct (_ =? 400)];
    destruct st; reflexivity.
Qed.

Lemma not_success (code : Z) :
  ~ 200 <= code <= 299 -> (200 <=? code) && (code <=? 299) = false.
Proof.
  intros H. destruct (Z.leb_spec 200 code), (Z.leb_spec code 299);
    try reflexivity; lia.
Qed.

(** ** Messages *)

Lemma prefix_refl (s : string) : String.prefix s s = true.
Proof.
  induction s as [|c s IH]; [reflexivity|]. simpl.
  destruct (Ascii.ascii_dec c c) as [_|n]; [exact IH | now destruct n].
Qed.

Lemma contains_end (sub a : string) : contains sub (a +:+ sub) = true.
Proof. apply contains_skip, contains_prefix, prefix_refl. Qed.

Lemma fmtNoStatus_contains url (code : Z) :
  contains url (fmtNoStatus url code) = true /\
  contains (itoa code) (fmtNoStatus url code) = true.
Proof.
  unfold fmtNoStatus. split.
  - apply contains_middle.
  - do 2 apply contains_skip. apply contains_end.
Qed.

Lemma fmtWithStatus_contains url (code : Z) (st : Status) :
  contains url (fmtWithStatus AnyString url code st) = true /\
  contains (itoa code) (fmtWithStatus AnyString url code st) = true /\
  contains (Message st) (fmtWithStatus AnyString url code st) = true /\
  contains (fmtDetails AnyString (Details st))
           (fmtWithStatus AnyString url code st) = true.
Proof.
  unfold fmtWithStatus, fmtNoStatus. rewrite !append_assoc. repeat split.
  - apply contains_middle.
  - do 2 apply contains_skip. apply contains_middle.
  - do 4 apply contains_skip. apply contains_middle.
  - do 6 apply contains_skip. apply contains_end.
Qed.

(** ** The decision table *)

(** C4: for every response with status code 400, [export] returns an
    error marked permanent, which the caller reads as a
    [PermanentFailure] (so neither retryable nor throttled). *)
Theorem status_400_is_permanent e url request resp w :
  answers urlError e url request resp ->
  -1 <= ContentLength resp ->
  StatusCode resp = 400 ->
  exists err,
    fst (export urlError Unmarshal AnyString e url request w)
      = Done (Some (permanent err)) /\
    outcome (Some (permanent err)) = PermanentFailure err.
Proof.
  intros Ha Hlen Hcode.
  exists (formattedErr AnyString url resp (statusInBody Unmarshal resp)).
  rewrite (answers_outcome e url request resp w Ha Hlen).
  unfold failure. rewrite Hcode. split; reflexivity.
Qed.

(** C5: for every response whose status code is outside 200-299 and is
    not 429, 503 or 400 (so also for 1xx and 3xx codes), [export] returns
    a plain error, neither marked permanent nor carrying a throttle
    duration, which the caller reads as a [RetryableFailure]. *)
Theorem other_status_is_retryable e url request resp w :
  answers urlError e url request resp ->
  -1 <= ContentLength resp ->
  ~ 200 <= StatusCode resp <= 299 ->
  StatusCode resp <> 429 -> StatusCode resp <> 503 -> StatusCode resp <> 400 ->
  exists msg,
    fst (export urlError Unmarshal AnyString e url request w)
      = Done (Some (errorString msg)) /\
    asPermanent (errorString msg) = None /\
    asThrottleRetry (errorString msg) = None /\
    outcome (Some (errorString msg)) = RetryableFailure (errorString msg).
Proof.
  intros Ha Hlen Hcode H429 H503 H400.
  rewrite (answers_outcome e url request resp w Ha Hlen), (not_success _ Hcode).
  unfold failure.
  apply Z.eqb_neq in H429, H503, H400. rewrite H429, H503, H400. cbn [orb].
  unfold formattedErr. destruct (statusInBody Unmarshal resp); eexists; now repeat split.
Qed.

(** ** The throttle hint *)

Lemma retryAfter_absent resp :
  Header resp !! headerRetryAfter = None -> retryAfter resp = 0.
Proof. intros H. unfold retryAfter, Header_Get. now rewrite H. Qed.

Lemma retryAfter_unparsed resp :
  Atoi (Header_Get (Header resp) headerRetryAfter) = None -> retryAfter resp = 0.
Proof. intros H. unfold retryAfter. rewrite H. now destruct (String.eqb _ _). Qed.

Lemma retryAfter_parsed resp (s : Z) :
  Atoi (Header_Get (Header resp) headerRetryAfter) = Some s -> retryAfter resp = s.
Proof.
  intros H. unfold retryAfter.
  destruct (String.eqb_spec (Header_Get (Header resp) headerRetryAfter) "") as [E|_].
  - rewrite E in H. discriminate.
  - now rewrite H.
Qed.

Lemma throttled e url request resp w :
  answers urlError e url request resp ->
  -1 <= ContentLength resp ->
  StatusCode resp = 429 \/ StatusCode resp = 503 ->
  exists msg,
    fst (export urlError Unmarshal AnyString e url request w)
      = Done (Some (throttleRetry (errorString msg)
                      (Duration_mul (retryAfter resp) Second))) /\
    outcome (Some (throttleRetry (errorString msg)
                     (Duration_mul (retryAfter resp) Second)))
      = ThrottledFailure (errorString msg) (Duration_mul (retryAfter resp) Second).
Proof.
  intros Ha Hlen Hcode.
  rewrite (answers_outcome e url request resp w Ha Hlen), not_success by lia.
  unfold failure.
  replace ((StatusCode resp =? 429) || (StatusCode resp =? 503)) with true
    by (destruct Hcode as [-> | ->]; reflexivity).
  unfold formattedErr. destruct (statusInBody Unmarshal resp); eexists; now split.
Qed.

(** C1, as the code has it: for every response with status code 429 or
    503, [export] returns a throttle error, read by the caller as a
    [ThrottledFailure], whose duration is the [Retry-After] value in
    seconds as an [int64] count of nanoseconds.  It is 0 when the header
    is absent or [strconv.Atoi] rejects its value, and it equals the
    parsed number of seconds whenever that number is within 9223372036
    either way. *)
Theorem throttle_retry_after e url request resp w :
  answers urlError e url request resp ->
  -1 <= ContentLength resp ->
  StatusCode resp = 429 \/ StatusCode resp = 503 ->
  exists err (delay : Duration),
    fst (export urlError Unmarshal AnyString e url request w)
      = Done (Some (throttleRetry err delay)) /\
    outcome (Some (throttleRetry err delay)) = ThrottledFailure err delay /\
    (Header resp !! headerRetryAfter = None -> delay = 0) /\
    (Atoi (Header_Get (Header resp) headerRetryAfter) = None -> delay = 0) /\
    (forall s, Atoi (Header_Get (Header resp) headerRetryAfter) = Some s ->
               -9223372036 <= s <= 9223372036 -> delay = s * Second).
Proof.
  intros Ha Hlen Hcode.
  destruct (throttled e url request resp w Ha Hlen Hcode) as (msg & E & Ho).
  exists (errorString msg), (Duration_mul (retryAfter resp) Second).
  split; [exact E|]. split; [exact Ho|]. repeat split.
  - intros H. now rewrite retryAfter_absent.
  - intros H. now rewrite retryAfter_unparsed.
  - intros s H Hs. rewrite (retryAfter_parsed _ _ H). now apply Duration_mul_exact.
Qed.

(** C10, as the code has it: for every response with status code 429 or
    503 whose [Retry-After] value parses to a negative number of seconds,
    down to -9223372036, [export] returns a throttle error whose duration
    is that negative number of seconds: the value is neither clamped to
    zero nor treated as non-numeric. *)
Theorem negative_retry_after e url request resp w (s : Z) :
  answers urlError e url request resp ->
  -1 <= ContentLength resp ->
  StatusCode resp = 429 \/ StatusCode resp = 503 ->
  Atoi (Header_Get (Header resp) headerRetryAfter) = Some s ->
  -9223372036 <= s < 0 ->
  exists err,
    fst (export urlError Unmarshal AnyString e url request w)
      = Done (Some (throttleRetry err (s * Second))) /\
    outcome (Some (throttleRetry err (s * Second)))
      = ThrottledFailure err (s * Second) /\
    s * Second < 0.
Proof.
  intros Ha Hlen Hcode Hs Hneg.
  destruct (throttled e url request resp w Ha Hlen Hcode) as (msg & E & Ho).
  rewrite (retryAfter_parsed _ _ Hs), Duration_mul_exact in E, Ho by lia.
  exists (errorString msg). unfold Second.
  split; [exact E | split; [exact Ho | lia]].
Qed.

(** ** The status decoder *)


(** C9, as the code has it: for every failure response (400-599) for
    which the length to read, [maxRead], is at least 1, the body holds at
    least that many bytes and those bytes are a well-formed encoded
    status, the error that the outcome carries has a message containing
    the destination URL, the numeric status code, the decoded message
    text and the decoded details. *)
Theorem decoded_status_in_message e url request resp w (st : Status) :
  answers urlError e url request resp ->
  -1 <= ContentLength resp ->
  400 <= StatusCode resp <= 599 ->
  0 < maxRead (ContentLength resp) <= Z.of_nat (length (BodyData resp)) ->
  Unmarshal (take (Z.to_nat (maxRead (ContentLength resp))) (BodyData resp)) = Some st ->
  exists msg,
    fst (export urlError Unmarshal AnyString e url request w)
      = Done (Some (failure AnyString url resp (Some st))) /\
    carried (outcome (Some (failure AnyString url resp (Some st))))
      = Some (errorString msg) /\
    contains url msg = true /\
    contains (itoa (StatusCode resp)) msg = true /\
    contains (Message st) msg = true /\
    contains (fmtDetails AnyString (Details st)) msg = true.
Proof.
  intros Ha Hlen Hcode [Hk Hl] Hst.
  assert (statusInBody Unmarshal resp = Some st) as Hsome.
  { unfold statusInBody.
    destruct (Z.leb_spec 400 (StatusCode resp)), (Z.leb_spec (StatusCode resp) 599);
      try lia. cbn [andb]. cbv zeta.
    destruct (Z.ltb_spec 0 (maxRead (ContentLength resp))); [|lia].
    destruct (Z.leb_spec (maxRead (ContentLength resp))
                         (Z.of_nat (length (BodyData resp)))); [|lia].
    exact Hst. }
  exists (fmtWithStatus AnyString url (StatusCode resp) st).
  split; [|split].
  - rewrite (answers_outcome e url request resp w Ha Hlen), not_success, Hsome by lia.
    reflexivity.
  - rewrite outcome_failure.
    destruct (_ || _); [|destruct (_ =? 400)]; reflexivity.
  - apply fmtWithStatus_contains.
Qed.

(** ** The debug log has no bearing on the rest *)

Lemma alike_Debug e1 e2 (msg1 msg2 : string) (f1 f2 : list (string * string)) :
  alike (Debug e1 msg1 f1) (Debug e2 msg2 f2).
Proof.
  intros w1 w2 [Hw Hc]. unfold Debug.
  destruct (debugEnabled e1), (debugEnabled e2); split; try reflexivity;
    split; assumption.
Qed.

Lemma alike_client_Do e1 e2 (req : Request) :
  client e1 = client e2 -> alike (client_Do e1 req) (client_Do e2 req).
Proof.
  intros He w1 w2 [Hw Hc]. unfold client_Do. rewrite He.
  destruct (client e2) as [c|]; [|now repeat split].
  destruct (c req) as [[resp|m]|v]; cbn; rewrite Hw; repeat split; assumption.
Qed.

Lemma alike_readResponse resp :
  alike (readResponse Unmarshal resp) (readResponse Unmarshal resp).
Proof.
  unfold readResponse. destruct (_ && _); [|apply alike_ret].
  apply alike_bind; [apply alike_make|]. intros buf.
  apply alike_bind; [apply alike_ReadFull|]. intros [[bs n] [m|]].
  - apply alike_ret.
  - destruct (n >? 0); apply alike_ret.
Qed.

Lemma alike_classify url resp :
  alike (classify Unmarshal AnyString url resp) (classify Unmarshal AnyString url resp).
Proof.
  unfold classify. destruct (_ && _); [apply alike_ret|].
  apply alike_bind; [apply alike_readResponse|]. intros st. apply alike_ret.
Qed.

Lemma alike_drainAndClose (r : option PanicValue) :
  alike (drainAndClose r) (drainAndClose r).
Proof.
  unfold drainAndClose.
  apply alike_bind; [apply alike_CopyN_Discard|]. intros _.
  apply alike_bind; [apply alike_Body_Close|]. intros _. apply alike_ret.
Qed.

(** Two exporters that differ in their logger only export alike. *)
Lemma alike_export (b1 b2 : bool) e url request :
  alike (export urlError Unmarshal AnyString (withDebug b1 e) url request)
        (export urlError Unmarshal AnyString (withDebug b2 e) url request).
Proof.
  unfold export. apply alike_bind; [apply alike_Debug|]. intros _.
  change (buildRequest urlError (withDebug b1 e) url request)
    with (buildRequest urlError (withDebug b2 e) url request).
  destruct (buildRequest _ _ _ _) as [req|m]; [|apply alike_ret].
  apply alike_bind; [now apply alike_client_Do|]. intros [resp|m].
  - apply alike_defer; [apply alike_drainAndClose | apply alike_classify].
  - apply alike_ret.
Qed.

Lemma alike_attempt (b1 b2 : bool) e d :
  alike
    (attempt MarshalProtoTraces MarshalProtoMetrics MarshalProtoLogs
             urlError Unmarshal AnyString (withDebug b1 e) d)
    (attempt MarshalProtoTraces MarshalProtoMetrics MarshalProtoLogs
             urlError Unmarshal AnyString (withDebug b2 e) d).
Proof.
  unfold attempt. apply alike_bind; [apply alike_call|]. intros [request|m].
  - destruct d; apply alike_export.
  - apply alike_ret.
Qed.

Lemma withDebug_same e : withDebug (debugEnabled e) e = e.
Proof. now destruct e. Qed.

Lemma alike_attempt_self e d :
  alike
    (attempt MarshalProtoTraces MarshalProtoMetrics MarshalProtoLogs
             urlError Unmarshal AnyString e d)
    (attempt MarshalProtoTraces MarshalProtoMetrics MarshalProtoLogs
             urlError Unmarshal AnyString e d).
Proof.
  rewrite <- (withDebug_same e). apply alike_attempt.
Qed.

(** The text renderings return, having written at most to the log. *)
Lemma logTextTraces_run e (td : Traces) w :
  exists s w', logTextTracesWithErrorHandled e td w = (Done s, w') /\ sim w' w.
Proof.
  unfold logTextTracesWithErrorHandled.
  destruct (debugTracesMarshaler e td) as [buf|m].
  - exists buf, w. split; [reflexivity | apply sim_refl].
  - destruct (Debug_run e "Text Marshal failed for traces: %v" [("error", m)] w)
      as (w' & E & Hs).
    eexists _, w'. split; [|exact Hs]. now rewrite (bind_Done _ _ _ _ _ E).
Qed.

Lemma logTextLogs_run e (ld : Logs) w :
  exists s w', logTextLogsWithErrorHandled e ld w = (Done s, w') /\ sim w' w.
Proof.
  unfold logTextLogsWithErrorHandled.
  destruct (debugLogsMarshaler e ld) as [buf|m].
  - exists buf, w. split; [reflexivity | apply sim_refl].
  - destruct (Debug_run e "Text Marshal failed for logs: %v" [("error", m)] w)
      as (w' & E & Hs).
    eexists _, w'. split; [|exact Hs]. now rewrite (bind_Done _ _ _ _ _ E).
Qed.

Lemma logTextMetrics_run e (md : Metrics) w :
  exists s w',
    logTextMetricsWithErrorHandled e (anyMetrics md) w = (Done s, w') /\ sim w' w.
Proof.
  unfold logTextMetricsWithErrorHandled.
  rewrite (bind_Done _ _ w md w) by reflexivity.
  destruct (debugMetricsMarshaler e md) as [buf|m].
  - exists buf, w. split; [reflexivity | apply sim_refl].
  - destruct (Debug_run e "Text Marshal failed for metrics: %v" [("error", m)] w)
      as (w' & E & Hs).
    eexists _, w'. split; [|exact Hs]. now rewrite (bind_Done _ _ _ _ _ E).
Qed.

(** On a batch of logs the metrics rendering fails its type assertion. *)
Lemma logTextMetrics_on_logs e (ld : Logs) w :
  logTextMetricsWithErrorHandled e (anyLogs ld) w
  = (Panicked (typeAssertion "pdata.Metrics" "plog.Logs"), w).
Proof. reflexivity. Qed.

(** The debug prologue and the deferred call of a push function: whether
    the function returns, what it returns, and what it does to the wire
    and to the body are those of its undecorated rest. *)
Lemma debug_wrapper e (pre post : Go string) (rest : Go (option error)) w :
  alike rest rest ->
  (forall w0, exists s w1, pre w0 = (Done s, w1) /\ sim w1 w0) ->
  (forall w0, sim (snd (post w0)) w0) ->
  returned (fst ((beforeMarshal <- pre ;;
                  defer_ None (logAndRethrowIfPanic e beforeMarshal (fun _ => post))
                         rest) w))
    = returned (fst (rest w)) /\
  sim (snd ((beforeMarshal <- pre ;;
             defer_ None (logAndRethrowIfPanic e beforeMarshal (fun _ => post))
                    rest) w))
      (snd (rest w)).
Proof.
  intros Hrest Hpre Hpost.
  destruct (Hpre w) as (s & w1 & E & Hs1).
  rewrite (bind_Done _ _ _ _ _ E).
  destruct (Hrest w1 w Hs1) as [Hf Hs2]. rewrite <- Hf. clear Hf.
  unfold defer_. destruct (rest w1) as [[a|v] w2]; cbn [fst snd] in *.
  - now split.
  - unfold logAndRethrowIfPanic.
    destruct (Debug_run e ("Before panic: " +:+ s) [] w2) as (w3 & E3 & Hs3).
    rewrite (bind_Done _ _ _ _ _ E3).
    pose proof (Hpost w3) as Hs4.
    destruct (post w3) as [[s'|v'] w4] eqn:Ep; cbn [snd] in Hs4.
    + destruct (Debug_run e ("Panic: " +:+ s') [] w4) as (w5 & E5 & Hs5).
      rewrite (bind_Done _ _ _ _ _ Ep), (bind_Done _ _ _ _ _ E5).
      cbn. split; [reflexivity|].
      apply (sim_trans _ w4); [exact Hs5|].
      apply (sim_trans _ w3); [exact Hs4|].
      apply (sim_trans _ w2); [exact Hs3 | exact Hs2].
    + rewrite (bind_Panicked _ _ _ _ _ Ep). cbn. split; [reflexivity|].
      apply (sim_trans _ w3); [exact Hs4|].
      apply (sim_trans _ w2); [exact Hs3 | exact Hs2].
Qed.

(** Every push function returns what its rest returns, panics when its
    rest panics, and sends and reads what its rest sends and reads. *)
Lemma push_attempt e d w :
  returned (fst (push MarshalProtoTraces MarshalProtoMetrics MarshalProtoLogs
                      urlError Unmarshal AnyString e d w))
    = returned (fst (attempt MarshalProtoTraces MarshalProtoMetrics MarshalProtoLogs
                             urlError Unmarshal AnyString e d w)) /\
  sim (snd (push MarshalProtoTraces MarshalProtoMetrics MarshalProtoLogs
                 urlError Unmarshal AnyString e d w))
      (snd (attempt MarshalProtoTraces MarshalProtoMetrics MarshalProtoLogs
                    urlError Unmarshal AnyString e d w)).
Proof.
  destruct d as [td|md|ld]; unfold push, pushTraces, pushMetrics, pushLogs;
    cbv zeta; (destruct (debugEnabled e); [|split; [reflexivity | apply sim_refl]]).
  - apply (debug_wrapper e _ _
             (attempt MarshalProtoTraces MarshalProtoMetrics MarshalProtoLogs
                      urlError Unmarshal AnyString e (anyTraces td))).
    + apply alike_attempt_self.
    + intros w0. apply logTextTraces_run.
    + intros w0. destruct (logTextTraces_run e td w0) as (s & w' & -> & Hs). exact Hs.
  - apply (debug_wrapper e _ _
             (attempt MarshalProtoTraces MarshalProtoMetrics MarshalProtoLogs
                      urlError Unmarshal AnyString e (anyMetrics md))).
    + apply alike_attempt_self.
    + intros w0. apply logTextMetrics_run.
    + intros w0. destruct (logTextMetrics_run e md w0) as (s & w' & -> & Hs). exact Hs.
  - apply (debug_wrapper e _ _
             (attempt MarshalProtoTraces MarshalProtoMetrics MarshalProtoLogs
                      urlError Unmarshal AnyString e (anyLogs ld))).
    + apply alike_attempt_self.
    + intros w0. apply logTextLogs_run.
    + intros w0. rewrite logTextMetrics_on_logs. apply sim_refl.
Qed.

(** ** The push functions *)

Local Abbreviation push' :=
  (push MarshalProtoTraces MarshalProtoMetrics MarshalProtoLogs
        urlError Unmarshal AnyString).
Local Abbreviation attempt' :=
  (attempt MarshalProtoTraces MarshalProtoMetrics MarshalProtoLogs
           urlError Unmarshal AnyString).
Local Abbreviation MarshalProto' :=
  (MarshalProto MarshalProtoTraces MarshalProtoMetrics MarshalProtoLogs).

Lemma attempt_encoded e d request w :
  MarshalProto' d = Done (inl request) ->
  attempt' e d w
  = export urlError Unmarshal AnyString e (destination e d) request w.
Proof.
  intros H. unfold attempt.
  now rewrite (bind_Done _ _ w (inl request) w) by (unfold call; now rewrite H).
Qed.

Lemma attempt_not_encoded e d (m : string) w :
  MarshalProto' d = Done (inr m) ->
  attempt' e d w = (Done (Some (permanent (errorString m))), w).
Proof.
  intros H. unfold attempt.
  now rewrite (bind_Done _ _ w (inr m) w) by (unfold call; now rewrite H).
Qed.



(** C7: for every batch, of traces, metrics or logs, whose encoding
    fails, the push call returns an error marked permanent, read by the
    caller as a [PermanentFailure], and hands no request to the
    transport. *)
Theorem encoding_failure_is_permanent e d (m : string) w :
  MarshalProto' d = Done (inr m) ->
  fst (push' e d w) = Done (Some (permanent (errorString m))) /\
  outcome (Some (permanent (errorString m))) = PermanentFailure (errorString m) /\
  wire (snd (push' e d w)) = wire w.
Proof.
  intros Henc.
  destruct (push_attempt e d w) as [R [W _]].
  rewrite (attempt_not_encoded e d m w Henc) in R, W.
  apply returned_Done in R. now repeat split.
Qed.

(** ** How much of the body is read *)

Lemma export_consumed e url request w :
  conn (snd (export urlError Unmarshal AnyString e url request w)) = conn w \/
  0 <= consumed (conn (snd (export urlError Unmarshal AnyString e url request w)))
    <= 2 * maxHTTPResponseReadBytes.
Proof.
  unfold export.
  destruct (Debug_run e "Preparing to make HTTP request" [("url", url)] w)
    as (w0 & E & Hw & Hcn).
  rewrite (bind_Done _ _ _ _ _ E).
  destruct (buildRequest urlError e url request) as [req|m]; [|now left].
  unfold bind, client_Do.
  destruct (client e) as [c|]; [|now left].
  destruct (c req) as [[resp|m]|v]; try now left.
  right.
  match goal with
  | |- context [defer_ None drainAndClose ?m ?w1] =>
      destruct (defer_drain m w1) as (_ & _ & _ & _ & Hd);
      destruct (classify_world url resp w1) as (_ & _ & _ & Hc)
  end.
  cbn [setConn conn bodyOf consumed] in Hc. lia.
Qed.

Lemma attempt_consumed e d w :
  conn (snd (attempt' e d w)) = conn w \/
  0 <= consumed (conn (snd (attempt' e d w))) <= 2 * maxHTTPResponseReadBytes.
Proof.
  unfold attempt, bind, call.
  destruct (MarshalProto' d) as [[request|m]|v]; try now left.
  apply export_consumed.
Qed.

(** C2, as the code has it: the read for status decoding and the drain
    before closing are each bounded by the cap of 64 KiB, whatever length
    the server declares; one push call therefore consumes at most twice
    the cap from the response body (or leaves the body alone, when no
    response was obtained). *)
Theorem body_consumption_bounded e d w :
  (conn (snd (push' e d w)) = conn w \/
   0 <= consumed (conn (snd (push' e d w))) <= 2 * maxHTTPResponseReadBytes) /\
  (forall resp w1,
     consumed (conn w1) <= consumed (conn (snd (readResponse Unmarshal resp w1)))
       <= consumed (conn w1) + maxHTTPResponseReadBytes) /\
  (forall r w1,
     consumed (conn w1) <= consumed (conn (snd (drainAndClose r w1)))
       <= consumed (conn w1) + maxHTTPResponseReadBytes).
Proof.
  split; [|split].
  - destruct (push_attempt e d w) as (_ & _ & ->). apply attempt_consumed.
  - intros resp w1. apply readResponse_world.
  - intros r w1.
    pose proof (consumed_advance (Z.to_nat maxHTTPResponseReadBytes) (conn w1)) as H.
    rewrite Z2Nat.id in H by (unfold maxHTTPResponseReadBytes; lia).
    exact H.
Qed.

(** ** Panics *)






(** A well-formed status of unknown length that is shorter than the cap
    is not decoded: [io.ReadFull] asks for the whole cap. *)
Lemma unknown_length_short_body resp :
  ContentLength resp = -1 ->
  Z.of_nat (length (BodyData resp)) < maxHTTPResponseReadBytes ->
  statusInBody Unmarshal resp = None.
Proof.
  intros Hlen Hshort. unfold statusInBody. destruct (_ && _); [|reflexivity].
  rewrite Hlen. change (maxRead (-1)) with maxHTTPResponseReadBytes. cbv zeta.
  destruct (Z.leb_spec maxHTTPResponseReadBytes (Z.of_nat (length (BodyData resp))));
    [lia|]. now rewrite andb_false_r.
Qed.


(** ** Without debug logging nothing is logged *)

Lemma Debug_quiet e (msg : string) (fields : list (string * string)) w :
  debugEnabled e = false -> Debug e msg fields w = (Done tt, w).
Proof. intros H. unfold Debug. now rewrite H. Qed.

Lemma export_quiet e url request w :
  debugEnabled e = false ->
  logged (snd (export urlError Unmarshal AnyString e url request w)) = logged w.
Proof.
  intros H. unfold export.
  rewrite (bind_Done _ _ _ _ _ (Debug_quiet e _ _ w H)).
  destruct (buildRequest urlError e url request) as [req|m]; [|reflexivity].
  unfold bind, client_Do.
  destruct (client e) as [c|]; [|reflexivity].
  destruct (c req) as [[resp|m]|v]; try reflexivity.
  match goal with
  | |- context [defer_ None drainAndClose ?m ?w1] =>
      destruct (defer_drain m w1) as (_ & -> & _);
      destruct (classify_world url resp w1) as (-> & _)
  end.
  reflexivity.
Qed.

(** X19: with debug logging off, a push call writes no log entry, on
    any path. *)
Lemma push_quiet e d w :
  debugEnabled e = false ->
  logged (snd (push MarshalProtoTraces MarshalProtoMetrics MarshalProtoLogs
                    urlError Unmarshal AnyString e d w)) = logged w.
Proof.
  intros H.
  assert (push' e d w = attempt' e d w) as ->
    by (destruct d; unfold push, pushTraces, pushMetrics, pushLogs;
        now rewrite H).
  unfold attempt, bind, call.
  destruct (MarshalProto' d) as [[request|m]|v]; try reflexivity.
  now apply export_quiet.
Qed.

(** ** Further properties of the delivery path *)

(** What [export] does to the wire: nothing, or the one request it built. *)
Lemma export_wire e url request w :
  wire (snd (export urlError Unmarshal AnyString e url request w)) = wire w \/
  exists (c : Client) req,
    client e = Some c /\ buildRequest urlError e url request = inl req /\
    wire (snd (export urlError Unmarshal AnyString e url request w)) = wire w ++ [req].
Proof.
  unfold export.
  destruct (Debug_run e "Preparing to make HTTP request" [("url", url)] w)
    as (w0 & E & Hw & Hcn).
  rewrite (bind_Done _ _ _ _ _ E).
  destruct (buildRequest urlError e url request) as [req|m]; [|now left].
  unfold bind, client_Do.
  destruct (client e) as [c|]; [|now left].
  right. exists c, req. split; [reflexivity|]. split; [reflexivity|].
  destruct (c req) as [[resp|m]|v]; cbn [snd wire]; try now rewrite Hw.
  match goal with
  | |- context [defer_ None drainAndClose ?m ?w1] =>
      destruct (defer_drain m w1) as (_ & _ & -> & _);
      destruct (classify_world url resp w1) as (_ & -> & _)
  end.
  cbn. now rewrite Hw.
Qed.

Lemma buildRequest_ok e url request :
  urlError url = None ->
  exists req,
    buildRequest urlError e url request = inl req /\
    Method req = "POST" /\ URL req = url /\ Payload req = request /\
    Header_Get (ReqHeader req) "Content-Type" = "application/x-protobuf" /\
    Header_Get (ReqHeader req) "User-Agent" = userAgent e.
Proof.
  intros H. unfold buildRequest, NewRequestWithContext. rewrite H.
  eexists. split; [reflexivity|]. cbn [Method URL Payload ReqHeader setHeader].
  repeat split.
Qed.

Lemma buildRequest_bad_url e url request (m : string) :
  urlError url = Some m -> buildRequest urlError e url request = inr m.
Proof. intros H. unfold buildRequest, NewRequestWithContext. now rewrite H. Qed.

(** X1: once a response is obtained, [export] returns nil exactly for the
    status codes 200 to 299, whatever the headers, the declared length
    and the body are. *)
Theorem export_success_iff e url request resp w :
  answers urlError e url request resp ->
  (fst (export urlError Unmarshal AnyString e url request w) = Done None <->
   200 <= StatusCode resp <= 299).
Proof.
  intros (c & req & Hc & Hb & Hr).
  destruct (export_answered e url request c req resp w Hc Hb Hr) as (w1 & _ & _ & ->).
  destruct (defer_drain (classify Unmarshal AnyString url resp) w1) as [-> _].
  split.
  - intros H.
    destruct (Z.leb_spec 200 (StatusCode resp)), (Z.leb_spec (StatusCode resp) 299);
      try lia; exfalso; revert H; unfold classify; rewrite not_success by lia;
      unfold bind; destruct (readResponse Unmarshal resp w1) as [[st|v] w2];
      discriminate.
  - intros H. now rewrite classify_success.
Qed.

(** X2: a push call whose batch encodes but whose destination URL does
    not parse returns an error marked permanent, hands nothing to the
    transport and touches no response body. *)
Theorem bad_url_is_permanent e d request (m : string) w :
  MarshalProto' d = Done (inl request) ->
  urlError (destination e d) = Some m ->
  fst (push' e d w) = Done (Some (permanent (errorString m))) /\
  outcome (Some (permanent (errorString m))) = PermanentFailure (errorString m) /\
  wire (snd (push' e d w)) = wire w /\
  conn (snd (push' e d w)) = conn w.
Proof.
  intros Henc Hurl.
  destruct (push_attempt e d w) as [R [W C]].
  rewrite (attempt_encoded e d request w Henc) in R, W, C.
  destruct (export_bad_url e (destination e d) request m w
              (buildRequest_bad_url e _ request m Hurl)) as [E [W' C']].
  rewrite E in R. apply returned_Done in R.
  repeat split; [exact R | congruence | congruence].
Qed.

(** X3: when the client is there and the URL parses, [export] hands
    exactly one request to the transport, whatever the transport then
    does: a POST to that URL whose payload is the encoded batch, with
    content type [application/x-protobuf] and the exporter's user agent. *)
Theorem request_handed_to_transport e url request (c : Client) w :
  client e = Some c ->
  urlError url = None ->
  exists req,
    wire (snd (export urlError Unmarshal AnyString e url request w)) = wire w ++ [req] /\
    Method req = "POST" /\ URL req = url /\ Payload req = request /\
    Header_Get (ReqHeader req) "Content-Type" = "application/x-protobuf" /\
    Header_Get (ReqHeader req) "User-Agent" = userAgent e.
Proof.
  intros Hc Hurl.
  destruct (buildRequest_ok e url request Hurl) as (req & Hb & Hreq).
  exists req. split; [|exact Hreq].
  unfold export.
  destruct (Debug_run e "Preparing to make HTTP request" [("url", url)] w)
    as (w0 & E & Hw & Hcn).
  rewrite (bind_Done _ _ _ _ _ E), Hb.
  unfold bind, client_Do. rewrite Hc.
  destruct (c req) as [[resp|m]|v]; cbn [snd wire]; try now rewrite Hw.
  match goal with
  | |- context [defer_ None drainAndClose ?m ?w1] =>
      destruct (defer_drain m w1) as (_ & _ & -> & _);
      destruct (classify_world url resp w1) as (_ & -> & _)
  end.
  cbn. now rewrite Hw.
Qed.

(** X4: whenever a response is obtained, its body is closed when [export]
    is over, on every path: success, failure, and a panic while the
    status is read. *)
Theorem response_body_closed e url request resp w :
  answers urlError e url request resp ->
  closed (conn (snd (export urlError Unmarshal AnyString e url request w))) = true.
Proof.
  intros (c & req & Hc & Hb & Hr).
  destruct (export_answered e url request c req resp w Hc Hb Hr) as (w1 & _ & _ & ->).
  now destruct (defer_drain (classify Unmarshal AnyString url resp) w1)
    as (_ & _ & _ & -> & _).
Qed.

(** X5: a push call hands at most one request to the transport, a POST to
    the destination of its kind of batch; it never sends a second one. *)
Theorem push_sends_at_most_once e d w :
  wire (snd (push' e d w)) = wire w \/
  exists req,
    wire (snd (push' e d w)) = wire w ++ [req] /\
    Method req = "POST" /\ URL req = destination e d.
Proof.
  destruct (push_attempt e d w) as (_ & -> & _).
  unfold attempt, bind, call.
  destruct (MarshalProto' d) as [[request|m]|v]; try now left.
  cbn [send].
  destruct (export_wire e (destination e d) request w) as [H | (c & req & _ & Hb & H)];
    [now left|].
  right. exists req. split; [exact H|].
  revert Hb. unfold buildRequest, NewRequestWithContext.
  destruct (urlError (destination e d)); [discriminate|].
  intros [= <-]. now split.
Qed.

(** The body after the deferred drain. *)
Lemma defer_drain_conn (m : Go (option error)) w :
  conn (snd (defer_ None drainAndClose m w))
  = {| pending := drop (Z.to_nat maxHTTPResponseReadBytes) (pending (conn (snd (m w))));
       ending := ending (conn (snd (m w)));
       consumed := consumed (conn (snd (m w)))
                   + Z.of_nat (length (take (Z.to_nat maxHTTPResponseReadBytes)
                                            (pending (conn (snd (m w))))));
       closed := true |}.
Proof.
  unfold defer_, drainAndClose, bind, CopyN_Discard, Body_Close, ret.
  destruct (m w) as [[a|v] w1]; reflexivity.
Qed.

(** X6: for a response whose status code is outside 400-599 (a success
    among them) the body is only drained: at most the cap is consumed, and
    a body no longer than the cap is consumed to its end before it is
    closed. *)
Theorem other_codes_only_drain e url request resp w :
  answers urlError e url request resp ->
  ~ 400 <= StatusCode resp <= 599 ->
  consumed (conn (snd (export urlError Unmarshal AnyString e url request w)))
    = Z.min maxHTTPResponseReadBytes (Z.of_nat (length (BodyData resp))) /\
  (Z.of_nat (length (BodyData resp)) <= maxHTTPResponseReadBytes ->
   pending (conn (snd (export urlError Unmarshal AnyString e url request w))) = []).
Proof.
  intros (c & req & Hc & Hb & Hr) Hcode.
  destruct (export_answered e url request c req resp w Hc Hb Hr) as (w1 & Hcn & _ & ->).
  rewrite defer_drain_conn, (classify_no_read url resp w1 Hcode), Hcn.
  assert (0 <= maxHTTPResponseReadBytes) as Hpos
    by (unfold maxHTTPResponseReadBytes; lia).
  cbn [pending consumed bodyOf]. split.
  - rewrite length_take. lia.
  - intros Hlen. apply drop_ge. lia.
Qed.

(** X7: a failure response that declares no length (-1) and whose body is
    shorter than the cap never has its status decoded, whatever the body
    holds: the error carries the message made of the URL and the status
    code alone. *)
Theorem unknown_length_status_dropped e url request resp w :
  answers urlError e url request resp ->
  400 <= StatusCode resp <= 599 ->
  ContentLength resp = -1 ->
  Z.of_nat (length (BodyData resp)) < maxHTTPResponseReadBytes ->
  fst (export urlError Unmarshal AnyString e url request w)
    = Done (Some (failure AnyString url resp None)) /\
  carried (outcome (Some (failure AnyString url resp None)))
    = Some (errorString (fmtNoStatus url (StatusCode resp))).
Proof.
  intros Ha Hcode Hlen Hshort. split.
  - rewrite (answers_outcome e url request resp w Ha) by lia.
    rewrite not_success by lia.
    now rewrite (unknown_length_short_body resp Hlen Hshort).
  - rewrite outcome_failure.
    destruct (_ || _); [|destruct (_ =? 400)]; reflexivity.
Qed.

(** X8: for every response that is not a success, the message of the
    error that the outcome carries names the destination URL and the
    numeric status code, whether or not a status was decoded. *)
Theorem failure_message_names_url_and_code e url request resp w :
  answers urlError e url request resp ->
  -1 <= ContentLength resp ->
  ~ 200 <= StatusCode resp <= 299 ->
  exists err msg,
    fst (export urlError Unmarshal AnyString e url request w) = Done (Some err) /\
    carried (outcome (Some err)) = Some (errorString msg) /\
    contains url msg = true /\
    contains (itoa (StatusCode resp)) msg = true.
Proof.
  intros Ha Hlen Hcode.
  rewrite (answers_outcome e url request resp w Ha Hlen), (not_success _ Hcode).
  exists (failure AnyString url resp (statusInBody Unmarshal resp)).
  destruct (statusInBody Unmarshal resp) as [st|].
  - exists (fmtWithStatus AnyString url (StatusCode resp) st).
    split; [reflexivity|]. split.
    + rewrite outcome_failure.
      destruct (_ || _); [|destruct (_ =? 400)]; reflexivity.
    + destruct (fmtWithStatus_contains url (StatusCode resp) st) as (H1 & H2 & _).
      now split.
  - exists (fmtNoStatus url (StatusCode resp)).
    split; [reflexivity|]. split.
    + rewrite outcome_failure.
      destruct (_ || _); [|destruct (_ =? 400)]; reflexivity.
    + apply fmtNoStatus_contains.
Qed.

(** X9: the headers of a response matter for 429 and 503 only: two
    responses with the same status code, other than those two, the same
    declared length and the same body give the same result, whatever
    their headers (a [Retry-After] among them) are. *)
Theorem headers_ignored_unless_throttled e1 e2 url request resp1 resp2 w1 w2 :
  answers urlError e1 url request resp1 ->
  answers urlError e2 url request resp2 ->
  StatusCode resp1 = StatusCode resp2 ->
  ContentLength resp1 = ContentLength resp2 ->
  BodyData resp1 = BodyData resp2 ->
  -1 <= ContentLength resp1 ->
  StatusCode resp1 <> 429 -> StatusCode resp1 <> 503 ->
  fst (export urlError Unmarshal AnyString e1 url request w1)
  = fst (export urlError Unmarshal AnyString e2 url request w2).
Proof.
  intros Ha1 Ha2 Hcode Hlen Hbody Hvalid H429 H503.
  rewrite (answers_outcome e1 url request resp1 w1 Ha1 Hvalid).
  rewrite (answers_outcome e2 url request resp2 w2 Ha2) by lia.
  assert (statusInBody Unmarshal resp1 = statusInBody Unmarshal resp2) as ->
    by (unfold statusInBody; now rewrite Hcode, Hlen, Hbody).
  unfold failure, formattedErr. rewrite <- Hcode.
  apply Z.eqb_neq in H429, H503. now rewrite H429, H503.
Qed.

Lemma statusInBody_prefix resp1 resp2 :
  StatusCode resp1 = StatusCode resp2 ->
  ContentLength resp1 = ContentLength resp2 ->
  take (Z.to_nat maxHTTPResponseReadBytes) (BodyData resp1)
    = take (Z.to_nat maxHTTPResponseReadBytes) (BodyData resp2) ->
  statusInBody Unmarshal resp1 = statusInBody Unmarshal resp2.
Proof.
  intros Hcode Hlen Hpre. unfold statusInBody. rewrite <- Hcode, <- Hlen.
  destruct (_ && _); [|reflexivity]. cbv zeta.
  pose proof (maxRead_cap (ContentLength resp1)) as Hcap.
  set (k := maxRead (ContentLength resp1)) in *. clearbody k.
  destruct (Z.ltb_spec 0 k) as [Hk|Hk]; [|reflexivity]. cbn [andb].
  assert (Z.to_nat k <= Z.to_nat maxHTTPResponseReadBytes)%nat as Hle by lia.
  assert (forall b : bytes,
            take (Z.to_nat k) b
            = take (Z.to_nat k) (take (Z.to_nat maxHTTPResponseReadBytes) b)) as Htake
    by (intros b; rewrite take_take; f_equal; lia).
  assert (length (take (Z.to_nat maxHTTPResponseReadBytes) (BodyData resp1))
          = length (take (Z.to_nat maxHTTPResponseReadBytes) (BodyData resp2))) as Hl
    by now rewrite Hpre.
  rewrite !length_take in Hl.
  rewrite (Htake (BodyData resp1)), (Htake (BodyData resp2)), Hpre.
  destruct (Z.leb_spec k (Z.of_nat (length (BodyData resp1)))),
           (Z.leb_spec k (Z.of_nat (length (BodyData resp2)))); try reflexivity; lia.
Qed.

(** X10: the bytes of a body beyond the cap have no bearing on the
    result: two responses with the same status code, headers and declared
    length whose bodies agree on their first 64 KiB give the same
    result. *)
Theorem bytes_beyond_cap_ignored e1 e2 url request resp1 resp2 w1 w2 :
  answers urlError e1 url request resp1 ->
  answers urlError e2 url request resp2 ->
  StatusCode resp1 = StatusCode resp2 ->
  Header resp1 = Header resp2 ->
  ContentLength resp1 = ContentLength resp2 ->
  -1 <= ContentLength resp1 ->
  take (Z.to_nat maxHTTPResponseReadBytes) (BodyData resp1)
    = take (Z.to_nat maxHTTPResponseReadBytes) (BodyData resp2) ->
  fst (export urlError Unmarshal AnyString e1 url request w1)
  = fst (export urlError Unmarshal AnyString e2 url request w2).
Proof.
  intros Ha1 Ha2 Hcode Hhdr Hlen Hvalid Hpre.
  rewrite (answers_outcome e1 url request resp1 w1 Ha1 Hvalid).
  rewrite (answers_outcome e2 url request resp2 w2 Ha2) by lia.
  rewrite (statusInBody_prefix resp1 resp2 Hcode Hlen Hpre).
  unfold failure, formattedErr, retryAfter. now rewrite Hcode, Hhdr.
Qed.

(** X11: a push call on an exporter whose client is still nil, for a
    batch that encodes and a destination that parses, panics (with a nil
    dereference when debug logging is off) and hands nothing to the
    transport. *)
Theorem push_before_start_panics e d request w :
  client e = None ->
  MarshalProto' d = Done (inl request) ->
  urlError (destination e d) = None ->
  returned (fst (push' e d w)) = None /\
  wire (snd (push' e d w)) = wire w /\
  (debugEnabled e = false -> fst (push' e d w) = Panicked nilDereference).
Proof.
  intros Hc Henc Hurl.
  destruct (buildRequest_ok e (destination e d) request Hurl) as (req & Hb & _).
  assert (exists w0, attempt' e d w = (Panicked nilDereference, w0) /\ sim w0 w)
    as (w0 & E & Hs).
  { rewrite (attempt_encoded e d request w Henc). unfold export.
    destruct (Debug_run e "Preparing to make HTTP request"
                [("url", destination e d)] w) as (w0 & E & Hs).
    rewrite (bind_Done _ _ _ _ _ E), Hb. unfold bind, client_Do. rewrite Hc.
    now exists w0. }
  destruct (push_attempt e d w) as [R [W _]]. rewrite E in R, W.
  split; [exact R|]. split; [destruct Hs; cbn in W; congruence|].
  intros Hdbg.
  assert (push' e d w = attempt' e d w) as ->
    by (destruct d; unfold push, pushTraces, pushMetrics, pushLogs;
        now rewrite Hdbg).
  now rewrite E.
Qed.


(** With a client and a URL that parses, the request goes out. *)
Lemma export_sends e url request (c : Client) (req : Request) w :
  client e = Some c ->
  buildRequest urlError e url request = inl req ->
  wire (snd (export urlError Unmarshal AnyString e url request w)) = wire w ++ [req].
Proof.
  intros Hc Hb.
  destruct (export_wire e url request w) as [H | (c' & req' & _ & Hb' & H)].
  - exfalso. revert H. unfold export.
    destruct (Debug_run e "Preparing to make HTTP request" [("url", url)] w)
      as (w0 & E & Hw & Hcn).
    rewrite (bind_Done _ _ _ _ _ E), Hb. unfold bind, client_Do. rewrite Hc.
    assert (forall l : list Request, l ++ [req] <> l) as Hne.
    { intros l Hl. apply (f_equal length) in Hl. rewrite length_app in Hl.
      simpl in Hl. lia. }
    destruct (c req) as [[resp|m]|v]; cbn [snd wire];
      try (rewrite Hw; apply Hne).
    match goal with
    | |- context [defer_ None drainAndClose ?m ?w1] =>
        destruct (defer_drain m w1) as (_ & _ & -> & _);
        destruct (classify_world url resp w1) as (_ & -> & _)
    end.
    cbn. rewrite Hw. apply Hne.
  - congruence.
Qed.

(** Without a client nothing is sent, and what is returned, if anything,
    is an error marked permanent. *)
Lemma no_client_attempt e d w :
  client e = None ->
  wire (snd (attempt' e d w)) = wire w /\
  (forall ret, fst (attempt' e d w) = Done ret ->
               exists err, ret = Some (permanent err)).
Proof.
  intros Hc. unfold attempt, bind, call.
  destruct (MarshalProto' d) as [[request|m]|v]; cbn [send];
    [|split; [reflexivity | intros ret [= <-]; eauto]
     |split; [reflexivity | discriminate]].
  unfold export.
  destruct (Debug_run e "Preparing to make HTTP request"
              [("url", destination e d)] w) as (w0 & E & Hw & Hcn).
  rewrite (bind_Done _ _ _ _ _ E).
  destruct (buildRequest urlError e (destination e d) request) as [req|m].
  - unfold bind, client_Do. rewrite Hc. split; [exact Hw | discriminate].
  - split; [exact Hw | intros ret [= <-]; eauto].
Qed.

(** X21: when the transport fails, the push call has handed exactly one
    request to the transport and has touched no response body: nothing is
    read, drained or closed. *)
Theorem transport_error_reads_nothing e d request (m : string) w :
  MarshalProto' d = Done (inl request) ->
  fails urlError e (destination e d) request m ->
  (exists req, wire (snd (push' e d w)) = wire w ++ [req]) /\
  conn (snd (push' e d w)) = conn w.
Proof.
  intros Henc (c & req & Hc & Hb & Hr).
  destruct (push_attempt e d w) as (_ & W & C).
  rewrite (attempt_encoded e d request w Henc) in W, C.
  destruct (export_refused e (destination e d) request c req m w Hc Hb Hr)
    as (_ & W' & C').
  split; [exists req|]; congruence.
Qed.

End Properties.

(** * Construction, start and settings *)

Section LifecycleProperties.

Context {Traces Metrics Logs : Type}.
Variable MarshalProtoTraces : Traces -> Res (bytes + string).
Variable MarshalProtoMetrics : Metrics -> Res (bytes + string).
Variable MarshalProtoLogs : Logs -> Res (bytes + string).
Variable urlError : string -> option string.
Variable Unmarshal : bytes -> option Status.
Variable AnyString : Any -> string.
Variable GOOS : string.
Variable GOARCH : string.
Variable NewTextLogsMarshaler : Logs -> string + string.
Variable NewTextMetricsMarshaler : Metrics -> string + string.
Variable NewTextTracesMarshaler : Traces -> string + string.

Local Abbreviation newExporter' :=
  (newExporter urlError GOOS GOARCH NewTextLogsMarshaler
               NewTextMetricsMarshaler NewTextTracesMarshaler).

Lemma newExporter_unstarted (cfg : ExporterConfig) (set : ExporterCreateSettings)
    (e : @exporter Traces Metrics Logs) :
  newExporter' cfg set = Done (inl e) ->
  client e = None /\ userAgent e = fmtUserAgent GOOS GOARCH (SetBuildInfo set).
Proof.
  unfold newExporter. destruct cfg as [oCfg|t]; [|discriminate].
  destruct (if String.eqb (Endpoint oCfg) "" then false else _); [discriminate|].
  intros [= <-]. now split.
Qed.

(** X13: [newExporter] returns an error exactly when the configuration
    is this exporter's own, its endpoint is not empty and [url.Parse]
    rejects it; the error is always the same fixed message, and an empty
    endpoint is never parsed. *)
Theorem newExporter_fails_iff (cfg : ExporterConfig) (set : ExporterCreateSettings)
    (err : error) :
  newExporter' cfg set = Done (inr err) <->
  exists oCfg,
    cfg = ownConfig oCfg /\ Endpoint oCfg <> "" /\
    urlError (Endpoint oCfg) <> None /\
    err = errorString "endpoint must be a valid URL".
Proof.
  unfold newExporter. split.
  - destruct cfg as [oCfg|t]; [|discriminate].
    destruct (String.eqb_spec (Endpoint oCfg) "") as [Heq|Hne]; [discriminate|].
    destruct (urlError (Endpoint oCfg)) as [m|] eqn:E; [|discriminate].
    intros [= <-]. exists oCfg. rewrite E. now repeat split.
  - intros (oCfg & -> & Hne & Hurl & ->).
    destruct (String.eqb_spec (Endpoint oCfg) "") as [Heq|_]; [contradiction|].
    destruct (urlError (Endpoint oCfg)); [reflexivity | contradiction].
Qed.

(** X14: an exporter as [newExporter] returns it, before [start], has no
    client: whatever is pushed, nothing is handed to the transport, and a
    push call that returns at all returns an error marked permanent. *)
Theorem unstarted_exporter_sends_nothing (cfg : ExporterConfig)
    (set : ExporterCreateSettings) (e : @exporter Traces Metrics Logs)
    (d : @any Traces Metrics Logs) (w : World) :
  newExporter' cfg set = Done (inl e) ->
  wire (snd (push MarshalProtoTraces MarshalProtoMetrics MarshalProtoLogs
                  urlError Unmarshal AnyString e d w)) = wire w /\
  (forall ret,
     fst (push MarshalProtoTraces MarshalProtoMetrics MarshalProtoLogs
               urlError Unmarshal AnyString e d w) = Done ret ->
     exists err, ret = Some (permanent err)).
Proof.
  intros Hnew. destruct (newExporter_unstarted cfg set e Hnew) as [Hc _].
  destruct (push_attempt MarshalProtoTraces MarshalProtoMetrics MarshalProtoLogs
              urlError Unmarshal AnyString e d w) as [R [W _]].
  destruct (no_client_attempt MarshalProtoTraces MarshalProtoMetrics MarshalProtoLogs
              urlError Unmarshal AnyString e d w Hc) as [W' P].
  split; [congruence|].
  intros ret Hret. apply P. apply returned_Done. rewrite <- R, Hret. reflexivity.
Qed.

(** X15: after [newExporter] and a successful [start], every request that
    [export] hands to the transport carries the user agent
    [Description/Version (GOOS/GOARCH)] of the build. *)
Theorem user_agent_on_the_wire (cfg : ExporterConfig)
    (set : ExporterCreateSettings) (e : @exporter Traces Metrics Logs)
    (c : Client) (url : string) (request : bytes) (w : World) :
  newExporter' cfg set = Done (inl e) ->
  urlError url = None ->
  snd (start (inl c) e) = None /\
  exists req,
    wire (snd (export urlError Unmarshal AnyString (fst (start (inl c) e))
                      url request w)) = wire w ++ [req] /\
    Header_Get (ReqHeader req) "User-Agent"
    = Description (SetBuildInfo set) +:+ "/" +:+ Version (SetBuildInfo set)
        +:+ " (" +:+ GOOS +:+ "/" +:+ GOARCH +:+ ")".
Proof.
  intros Hnew Hurl. split; [reflexivity|].
  destruct (newExporter_unstarted cfg set e Hnew) as [_ Hua].
  destruct (buildRequest_ok urlError (fst (start (inl c) e)) url request Hurl)
    as (req & Hb & _ & _ & _ & _ & Hagent).
  exists req. split.
  - now apply (export_sends urlError Unmarshal AnyString _ url request c req w).
  - rewrite Hagent. cbn [start fst setClient userAgent]. exact Hua.
Qed.

End LifecycleProperties.

Section ValidateProperties.

Variable Quote : string -> string.

(** X16: the telemetry settings of the service are valid exactly when the
    encoding of the logs is [json] or [console], in that spelling; any
    other encoding, the empty one included, is refused with a message that
    quotes it. *)
Theorem validate_accepts_json_and_console (srvT : Service.ServiceTelemetry) :
  (Service.ServiceTelemetry_validate Quote srvT = None <->
   Service.Encoding (Service.Logs srvT) = "json" \/
   Service.Encoding (Service.Logs srvT) = "console") /\
  (forall err,
     Service.ServiceTelemetry_validate Quote srvT = Some err ->
     exists msg,
       err = errorString msg /\
       contains (Quote (Service.Encoding (Service.Logs srvT))) msg = true).
Proof.
  unfold Service.ServiceTelemetry_validate, Service.ServiceTelemetryLogs_validate.
  destruct (String.eqb_spec (Service.Encoding (Service.Logs srvT)) "json") as [Hj|Hj];
    destruct (String.eqb_spec (Service.Encoding (Service.Logs srvT)) "console")
      as [Hc|Hc]; cbn [negb andb]; split;
    try (split; [now auto | intros _; reflexivity]);
    try discriminate.
  - split; [discriminate | intros [H|H]; contradiction].
  - intros err [= <-]. eexists. split; [reflexivity|].
    unfold Service.fmtInvalidEncoding. apply contains_middle.
Qed.

End ValidateProperties.

(** * Worked examples *)

Lemma answers_example (resp : Response) (debug : bool) :
  answers noUrlError (exampleExporter (Some (answer resp)) debug) logsURL0 [] resp.
Proof. exists (answer resp), (exampleRequest logsURL0 []). now repeat split. Defined.

(** ** The examples of the specification *)

Example status_200_success :
  fst (exportTo (respond 200 [] 0 []) false world0) = Done None.
Proof. reflexivity. Qed.

Example status_429_retry_after_5 :
  fst (exportTo (respond 429 [("Retry-After", ["5"])] 0 []) false world0)
  = Done (Some (throttleRetry
       (errorString "error exporting items, request to http://collector:4318/v1/logs responded with HTTP Status Code 429")
       5000000000)).
Proof. vm_compute. reflexivity. Qed.

Example status_503_no_header :
  fst (exportTo (respond 503 [] 0 []) false world0)
  = Done (Some (throttleRetry
       (errorString "error exporting items, request to http://collector:4318/v1/logs responded with HTTP Status Code 503")
       0)).
Proof. vm_compute. reflexivity. Qed.

Example status_429_http_date :
  fst (exportTo (respond 429 [("Retry-After", ["Wed, 21 Oct 2015 07:28:00 GMT"])] 0 [])
                false world0)
  = Done (Some (throttleRetry
       (errorString "error exporting items, request to http://collector:4318/v1/logs responded with HTTP Status Code 429")
       0)).
Proof. vm_compute. reflexivity. Qed.

Example status_400_permanent :
  fst (exportTo (respond 400 [] 0 []) false world0)
  = Done (Some (permanent
       (errorString "error exporting items, request to http://collector:4318/v1/logs responded with HTTP Status Code 400"))).
Proof. vm_compute. reflexivity. Qed.

Example status_500_undecodable :
  fst (exportTo (respond 500 [] 3 [Byte.xff; Byte.xff; Byte.xff]) false world0)
  = Done (Some
       (errorString "error exporting items, request to http://collector:4318/v1/logs responded with HTTP Status Code 500")).
Proof. vm_compute. reflexivity. Qed.

Example status_500_overloaded :
  fst (exportTo (respond 500 [] 12 (Wire.encodeMessage "overloaded")) false world0)
  = Done (Some
       (errorString "error exporting items, request to http://collector:4318/v1/logs responded with HTTP Status Code 500, Message=overloaded, Details=[]")).
Proof. vm_compute. reflexivity. Qed.

(** The same status sent without a declared length (a chunked response) is
    not decoded. *)
Example status_500_overloaded_chunked :
  fst (exportTo (respond 500 [] (-1) (Wire.encodeMessage "overloaded")) false world0)
  = Done (Some
       (errorString "error exporting items, request to http://collector:4318/v1/logs responded with HTTP Status Code 500")).
Proof. vm_compute. reflexivity. Qed.

(** Pushing before [start]: the client is nil. *)
Example push_before_start :
  fst (pushLogs encodeOk noUrlError Wire.Unmarshal exampleAnyString
                (exampleExporter None false) 0%nat world0)
  = Panicked nilDereference.
Proof. reflexivity. Qed.

(** ** Concrete instances of the theorems *)

Lemma status_400_is_permanent_witness :
  exists err,
    fst (exportTo (respond 400 [] 0 []) false world0) = Done (Some (permanent err)) /\
    outcome (Some (permanent err)) = PermanentFailure err.
Proof.
  apply (status_400_is_permanent noUrlError Wire.Unmarshal exampleAnyString
           _ _ _ (respond 400 [] 0 []) world0).
  - apply answers_example.
  - simpl. lia.
  - reflexivity.
Defined.

Lemma other_status_is_retryable_witness :
  exists msg,
    fst (exportTo (respond 302 [] (-1) []) false world0) = Done (Some (errorString msg)) /\
    asPermanent (errorString msg) = None /\
    asThrottleRetry (errorString msg) = None /\
    outcome (Some (errorString msg)) = RetryableFailure (errorString msg).
Proof.
  apply (other_status_is_retryable noUrlError Wire.Unmarshal exampleAnyString
           _ _ _ (respond 302 [] (-1) []) world0).
  - apply answers_example.
  - simpl. lia.
  - simpl. lia.
  - simpl. lia.
  - simpl. lia.
  - simpl. lia.
Defined.

Lemma throttle_retry_after_witness :
  exists err (delay : Duration),
    fst (exportTo resp429 false world0) = Done (Some (throttleRetry err delay)) /\
    outcome (Some (throttleRetry err delay)) = ThrottledFailure err delay /\
    (Header resp429 !! headerRetryAfter = None -> delay = 0) /\
    (Atoi (Header_Get (Header resp429) headerRetryAfter) = None -> delay = 0) /\
    (forall s, Atoi (Header_Get (Header resp429) headerRetryAfter) = Some s ->
               -9223372036 <= s <= 9223372036 -> delay = s * Second).
Proof.
  apply (throttle_retry_after noUrlError Wire.Unmarshal exampleAnyString
           _ _ _ resp429 world0).
  - apply answers_example.
  - simpl. lia.
  - left. reflexivity.
Defined.

Lemma negative_retry_after_witness :
  exists err,
    fst (exportTo resp503 false world0)
      = Done (Some (throttleRetry err (-5 * Second))) /\
    outcome (Some (throttleRetry err (-5 * Second)))
      = ThrottledFailure err (-5 * Second) /\
    -5 * Second < 0.
Proof.
  apply (negative_retry_after noUrlError Wire.Unmarshal exampleAnyString
           _ _ _ resp503 world0 (-5)).
  - apply answers_example.
  - simpl. lia.
  - right. reflexivity.
  - vm_compute. reflexivity.
  - lia.
Defined.


Lemma decoded_status_in_message_witness :
  exists msg,
    fst (exportTo resp500 false world0)
      = Done (Some (failure exampleAnyString logsURL0 resp500 (Some overloaded))) /\
    carried (outcome (Some (failure exampleAnyString logsURL0 resp500 (Some overloaded))))
      = Some (errorString msg) /\
    contains logsURL0 msg = true /\
    contains (itoa 500) msg = true /\
    contains "overloaded" msg = true /\
    contains (fmtDetails exampleAnyString []) msg = true.
Proof.
  apply (decoded_status_in_message noUrlError Wire.Unmarshal exampleAnyString
           _ _ _ resp500 world0 overloaded).
  - apply answers_example.
  - simpl. lia.
  - simpl. lia.
  - vm_compute. split; [reflexivity | discriminate].
  - vm_compute. reflexivity.
Defined.


Lemma encoding_failure_is_permanent_witness :
  fst (push encodeOk encodeOk encodeErr noUrlError Wire.Unmarshal exampleAnyString
            (exampleExporter (Some (answer resp500)) true) (anyLogs 7%nat) world0)
    = Done (Some (permanent (errorString "proto: invalid batch"))) /\
  outcome (Some (permanent (errorString "proto: invalid batch")))
    = PermanentFailure (errorString "proto: invalid batch") /\
  wire (snd (push encodeOk encodeOk encodeErr noUrlError Wire.Unmarshal exampleAnyString
                  (exampleExporter (Some (answer resp500)) true) (anyLogs 7%nat) world0))
    = wire world0.
Proof.
  apply (encoding_failure_is_permanent encodeOk encodeOk encodeErr noUrlError
           Wire.Unmarshal exampleAnyString _ (anyLogs 7%nat) "proto: invalid batch" world0).
  reflexivity.
Defined.

(** ** Where the specification and the code part *)

(** A [Retry-After] of 9223372037 seconds is accepted by [strconv.Atoi],
    and the multiplication by [time.Second] overflows the [int64]: the
    duration handed to the caller is negative, not 9223372037 seconds. *)
Lemma retry_after_overflows :
  Atoi "9223372037" = Some 9223372037 /\
  fst (exportTo (respond 429 [("Retry-After", ["9223372037"])] 0 []) false world0)
  = Done (Some (throttleRetry
       (errorString "error exporting items, request to http://collector:4318/v1/logs responded with HTTP Status Code 429")
       (-9223372036709551616))) /\
  -9223372036709551616 <> 9223372037 * Second.
Proof. split; [|split]; [vm_compute; reflexivity .. | discriminate]. Qed.

(** A [Retry-After] of -9223372037 seconds is accepted as well, and the
    duration handed to the caller is positive. *)
Lemma negative_retry_after_overflows :
  Atoi "-9223372037" = Some (-9223372037) /\
  fst (exportTo (respond 503 [("Retry-After", ["-9223372037"])] 0 []) false world0)
  = Done (Some (throttleRetry
       (errorString "error exporting items, request to http://collector:4318/v1/logs responded with HTTP Status Code 503")
       9223372036709551616)) /\
  9223372036709551616 <> -9223372037 * Second /\
  ~ 9223372036709551616 < 0.
Proof.
  split; [|split; [|split]]; [vm_compute; reflexivity .. | discriminate | lia].
Qed.

(** A 500 response that declares and delivers 128 KiB: the status decoder
    reads 64 KiB and the deferred drain another 64 KiB. *)
Lemma body_read_beyond_the_cap :
  consumed (conn (snd (
    pushLogs encodeOk noUrlError Wire.Unmarshal exampleAnyString
      (exampleExporter
         (Some (answer (respond 500 [] 131072 (repeat Byte.x00 (Z.to_nat 131072)))))
         false)
      0%nat world0))) = 131072 /\
  ~ 131072 <= maxHTTPResponseReadBytes.
Proof. split; [vm_compute; reflexivity | vm_compute; tauto]. Qed.


(** A well-formed status whose message is longer than the cap, sent with
    its true length: the first 64 KiB alone do not decode, and the message
    of the error is the one without the decoded text. *)
Lemma long_status_not_in_message :
  Wire.Unmarshal (Wire.encodeMessage longMessage)
    = Some {| Code := 0; Message := longMessage; Details := [] |} /\
  fst (exportTo (respond 500 [] 65604 (Wire.encodeMessage longMessage)) false world0)
    = Done (Some
       (errorString "error exporting items, request to http://collector:4318/v1/logs responded with HTTP Status Code 500")) /\
  contains longMessage
    "error exporting items, request to http://collector:4318/v1/logs responded with HTTP Status Code 500"
    = false.
Proof.
  split; [|split].
  - vm_cast_no_check
      (eq_refl (Some {| Code := 0; Message := longMessage; Details := [] |})).
  - vm_compute. reflexivity.
  - vm_compute. reflexivity.
Qed.

(** ** Concrete instances of the further properties *)

Lemma export_success_iff_witness :
  fst (exportTo (respond 204 [] 0 []) false world0) = Done None <->
  200 <= StatusCode (respond 204 [] 0 []) <= 299.
Proof.
  apply (export_success_iff noUrlError Wire.Unmarshal exampleAnyString
           _ _ _ (respond 204 [] 0 []) world0).
  apply answers_example.
Defined.

Lemma bad_url_is_permanent_witness :
  fst (push encodeOk encodeOk encodeOk rejectUrl Wire.Unmarshal exampleAnyString
            (exampleExporter (Some refuse) false) (anyTraces 2%nat) world0)
    = Done (Some (permanent (errorString "parse: missing protocol scheme"))) /\
  outcome (Some (permanent (errorString "parse: missing protocol scheme")))
    = PermanentFailure (errorString "parse: missing protocol scheme") /\
  wire (snd (push encodeOk encodeOk encodeOk rejectUrl Wire.Unmarshal exampleAnyString
                  (exampleExporter (Some refuse) false) (anyTraces 2%nat) world0))
    = wire world0 /\
  conn (snd (push encodeOk encodeOk encodeOk rejectUrl Wire.Unmarshal exampleAnyString
                  (exampleExporter (Some refuse) false) (anyTraces 2%nat) world0))
    = conn world0.
Proof.
  apply (bad_url_is_permanent encodeOk encodeOk encodeOk rejectUrl Wire.Unmarshal
           exampleAnyString _ (anyTraces 2%nat) (repeat Byte.x0a 2)
           "parse: missing protocol scheme" world0).
  - reflexivity.
  - reflexivity.
Defined.

Lemma request_handed_to_transport_witness :
  exists req,
    wire (snd (export noUrlError Wire.Unmarshal exampleAnyString
                      (exampleExporter (Some refuse) false) logsURL0
                      [Byte.x0a] world0)) = wire world0 ++ [req] /\
    Method req = "POST" /\ URL req = logsURL0 /\ Payload req = [Byte.x0a] /\
    Header_Get (ReqHeader req) "Content-Type" = "application/x-protobuf" /\
    Header_Get (ReqHeader req) "User-Agent"
      = userAgent (exampleExporter (Some refuse) false).
Proof.
  apply (request_handed_to_transport noUrlError Wire.Unmarshal exampleAnyString
           (exampleExporter (Some refuse) false) logsURL0 [Byte.x0a] refuse world0).
  - reflexivity.
  - reflexivity.
Defined.

Lemma response_body_closed_witness :
  closed (conn (snd (exportTo resp500bad true world0))) = true.
Proof.
  apply (response_body_closed noUrlError Wire.Unmarshal exampleAnyString
           _ _ _ resp500bad world0).
  apply answers_example.
Defined.

Lemma other_codes_only_drain_witness :
  consumed (conn (snd (exportTo (respond 200 [] 2 [Byte.x01; Byte.x02]) false world0)))
    = Z.min maxHTTPResponseReadBytes
            (Z.of_nat (length (BodyData (respond 200 [] 2 [Byte.x01; Byte.x02])))) /\
  (Z.of_nat (length (BodyData (respond 200 [] 2 [Byte.x01; Byte.x02])))
     <= maxHTTPResponseReadBytes ->
   pending (conn (snd (exportTo (respond 200 [] 2 [Byte.x01; Byte.x02]) false world0)))
     = []).
Proof.
  apply (other_codes_only_drain noUrlError Wire.Unmarshal exampleAnyString
           _ _ _ (respond 200 [] 2 [Byte.x01; Byte.x02]) world0).
  - apply answers_example.
  - simpl. lia.
Defined.

Lemma unknown_length_status_dropped_witness :
  fst (exportTo (respond 500 [] (-1) (Wire.encodeMessage "overloaded")) false world0)
    = Done (Some (failure exampleAnyString logsURL0
                    (respond 500 [] (-1) (Wire.encodeMessage "overloaded")) None)) /\
  carried (outcome (Some (failure exampleAnyString logsURL0
                    (respond 500 [] (-1) (Wire.encodeMessage "overloaded")) None)))
    = Some (errorString (fmtNoStatus logsURL0 500)).
Proof.
  apply (unknown_length_status_dropped noUrlError Wire.Unmarshal exampleAnyString
           _ _ _ (respond 500 [] (-1) (Wire.encodeMessage "overloaded")) world0).
  - apply answers_example.
  - simpl. lia.
  - reflexivity.
  - vm_compute. reflexivity.
Defined.

Lemma failure_message_names_url_and_code_witness :
  exists err msg,
    fst (exportTo resp500 false world0) = Done (Some err) /\
    carried (outcome (Some err)) = Some (errorString msg) /\
    contains logsURL0 msg = true /\
    contains (itoa (StatusCode resp500)) msg = true.
Proof.
  apply (failure_message_names_url_and_code noUrlError Wire.Unmarshal exampleAnyString
           _ _ _ resp500 world0).
  - apply answers_example.
  - simpl. lia.
  - simpl. lia.
Defined.

Lemma headers_ignored_unless_throttled_witness :
  fst (exportTo (respond 500 [("Retry-After", ["5"])] 0 []) false world0)
  = fst (exportTo (respond 500 [] 0 []) false world0).
Proof.
  apply (headers_ignored_unless_throttled noUrlError Wire.Unmarshal exampleAnyString
           _ _ _ _ (respond 500 [("Retry-After", ["5"])] 0 []) (respond 500 [] 0 [])
           world0 world0).
  - apply answers_example.
  - apply answers_example.
  - reflexivity.
  - reflexivity.
  - reflexivity.
  - simpl. lia.
  - simpl. lia.
  - simpl. lia.
Defined.

Lemma bytes_beyond_cap_ignored_witness :
  fst (exportTo (respond 500 [] (-1) (repeat Byte.x00 (Z.to_nat 65536) ++ [Byte.x01]))
                false world0)
  = fst (exportTo (respond 500 [] (-1) (repeat Byte.x00 (Z.to_nat 65536) ++ [Byte.x02]))
                  false world0).
Proof.
  apply (bytes_beyond_cap_ignored noUrlError Wire.Unmarshal exampleAnyString
           _ _ _ _
           (respond 500 [] (-1) (repeat Byte.x00 (Z.to_nat 65536) ++ [Byte.x01]))
           (respond 500 [] (-1) (repeat Byte.x00 (Z.to_nat 65536) ++ [Byte.x02]))
           world0 world0).
  - apply answers_example.
  - apply answers_example.
  - reflexivity.
  - reflexivity.
  - reflexivity.
  - simpl. lia.
  - cbn [BodyData respond].
    rewrite !take_app_length' by (now rewrite repeat_length). reflexivity.
Defined.

Lemma push_before_start_panics_witness :
  returned (fst (push encodeOk encodeOk encodeOk noUrlError Wire.Unmarshal
                      exampleAnyString (exampleExporter None true)
                      (anyLogs 1%nat) world0)) = None /\
  wire (snd (push encodeOk encodeOk encodeOk noUrlError Wire.Unmarshal
                  exampleAnyString (exampleExporter None true)
                  (anyLogs 1%nat) world0)) = wire world0 /\
  (debugEnabled (exampleExporter None true) = false ->
   fst (push encodeOk encodeOk encodeOk noUrlError Wire.Unmarshal
             exampleAnyString (exampleExporter None true)
             (anyLogs 1%nat) world0) = Panicked nilDereference).
Proof.
  apply (push_before_start_panics encodeOk encodeOk encodeOk noUrlError
           Wire.Unmarshal exampleAnyString (exampleExporter None true)
           (anyLogs 1%nat) (repeat Byte.x0a 1) world0).
  - reflexivity.
  - reflexivity.
  - reflexivity.
Defined.


Lemma push_quiet_witness :
  logged (snd (push encodeOk encodeOk encodeOk noUrlError Wire.Unmarshal
                    exampleAnyString (exampleExporter (Some (answer resp500)) false)
                    (anyTraces 1%nat) world0)) = logged world0.
Proof.
  apply (push_quiet encodeOk encodeOk encodeOk noUrlError Wire.Unmarshal
           exampleAnyString (exampleExporter (Some (answer resp500)) false)
           (anyTraces 1%nat) world0).
  reflexivity.
Defined.


Lemma unstarted_exporter_sends_nothing_witness :
  wire (snd (push encodeOk encodeOk encodeOk noUrlError Wire.Unmarshal
                  exampleAnyString constructed (anyLogs 1%nat) world0))
    = wire world0 /\
  (forall ret,
     fst (push encodeOk encodeOk encodeOk noUrlError Wire.Unmarshal
               exampleAnyString constructed (anyLogs 1%nat) world0) = Done ret ->
     exists err, ret = Some (permanent err)).
Proof.
  apply (unstarted_exporter_sends_nothing encodeOk encodeOk encodeOk noUrlError
           Wire.Unmarshal exampleAnyString "linux" "amd64" textOk textOk textOk
           (ownConfig {| Endpoint := "" |}) exampleSettings constructed
           (anyLogs 1%nat) world0).
  reflexivity.
Defined.

Lemma user_agent_on_the_wire_witness :
  snd (start (inl refuse) constructed) = None /\
  exists req,
    wire (snd (export noUrlError Wire.Unmarshal exampleAnyString
                      (fst (start (inl refuse) constructed))
                      logsURL0 [] world0)) = wire world0 ++ [req] /\
    Header_Get (ReqHeader req) "User-Agent"
    = Description (SetBuildInfo exampleSettings) +:+ "/"
        +:+ Version (SetBuildInfo exampleSettings)
        +:+ " (" +:+ "linux" +:+ "/" +:+ "amd64" +:+ ")".
Proof.
  apply (user_agent_on_the_wire noUrlError Wire.Unmarshal exampleAnyString
           "linux" "amd64" textOk textOk textOk
           (ownConfig {| Endpoint := "http://collector:4318" |}) exampleSettings
           constructed refuse logsURL0 [] world0).
  - reflexivity.
  - reflexivity.
Defined.

Lemma transport_error_reads_nothing_witness :
  (exists req,
     wire (snd (push encodeOk encodeOk encodeOk noUrlError Wire.Unmarshal
                     exampleAnyString (exampleExporter (Some refuse) true)
                     (anyLogs 3%nat) world0)) = wire world0 ++ [req]) /\
  conn (snd (push encodeOk encodeOk encodeOk noUrlError Wire.Unmarshal
                  exampleAnyString (exampleExporter (Some refuse) true)
                  (anyLogs 3%nat) world0)) = conn world0.
Proof.
  apply (transport_error_reads_nothing encodeOk encodeOk encodeOk noUrlError
           Wire.Unmarshal exampleAnyString _ _ (repeat Byte.x0a 3)
           "dial tcp 127.0.0.1:4318: connect: connection refused" world0).
  - reflexivity.
  - exists refuse, (exampleRequest logsURL0 (repeat Byte.x0a 3)).
    now repeat split.
Defined.
